(** * SetrowRNPush: a shallow embedding of [setrow-rn-push/index.js]

    The module is glue around four collaborators: the key-value store
    ([AsyncStorage]), the push library ([firebase]), the device-information
    API and the HTTP client ([fetch]).  The embedding keeps the module's own
    state and every effect it has on a collaborator in a record [World], and
    takes what the collaborators answer from a record [Env].

    Conventions.
    - A JS string is a [string]: a sequence of code units below 256.
    - A promise is the list of [resolve]/[reject] calls made on it, oldest
      first; the first one decides its state and the empty list is a promise
      that stays pending for ever.
    - A call that the source starts without awaiting it ([sendLog],
      [sendRequest] inside a [then]) is run to its end at the place where it
      is started: its effects are those of the source, and they enter the
      trace before the effects of the code that follows the call. *)

From Stdlib Require Import ZArith Ascii String List Bool Lia.
From stdpp Require Import base option gmap strings list fin_maps.

Local Open Scope string_scope.
Local Open Scope Z_scope.

(** ** Regular expressions, as [RegExp.prototype.test] uses them *)

Module RegExp.

(** The fragment the module needs: character classes, sequence, choice and
    iteration.  The pattern of the module is anchored at both ends and has
    neither back-references nor look-around, so [test] decides membership of
    the whole string in the language of the pattern. *)
Inductive re : Type :=
| Never
| Empty
| Class (p : ascii → bool)
| Seq (r s : re)
| Or (r s : re)
| Many (r : re).

(** [r+] *)
Definition some (r : re) : re := Seq r (Many r).

(** [r{n}] *)
Fixpoint times (n : nat) (r : re) : re :=
  match n with
  | O => Empty
  | S n' => Seq r (times n' r)
  end.

(** [r{0,n}] *)
Fixpoint upto (n : nat) (r : re) : re :=
  match n with
  | O => Empty
  | S n' => Or Empty (Seq r (upto n' r))
  end.

(** [r{lo,hi}] *)
Definition between (lo hi : nat) (r : re) : re :=
  Seq (times lo r) (upto (hi - lo) r).

(** [r{n,}] *)
Definition at_least (n : nat) (r : re) : re := Seq (times n r) (Many r).

Fixpoint nullable (r : re) : bool :=
  match r with
  | Never => false
  | Empty => true
  | Class _ => false
  | Seq r1 r2 => nullable r1 && nullable r2
  | Or r1 r2 => nullable r1 || nullable r2
  | Many _ => true
  end.

(** What is left of [r] after it has read [c]. *)
Fixpoint deriv (c : ascii) (r : re) : re :=
  match r with
  | Never => Never
  | Empty => Never
  | Class p => if p c then Empty else Never
  | Seq r1 r2 =>
      if nullable r1
      then Or (Seq (deriv c r1) r2) (deriv c r2)
      else Seq (deriv c r1) r2
  | Or r1 r2 => Or (deriv c r1) (deriv c r2)
  | Many r1 => Seq (deriv c r1) (Many r1)
  end.

Fixpoint test (r : re) (s : string) : bool :=
  match s with
  | EmptyString => nullable r
  | String c s' => test (deriv c r) s'
  end.

(** The language of a pattern, to check [test] against. *)
Inductive lang : re → string → Prop :=
| lang_empty : lang Empty ""
| lang_class p c : p c = true → lang (Class p) (String c "")
| lang_seq r1 r2 s1 s2 : lang r1 s1 → lang r2 s2 → lang (Seq r1 r2) (s1 ++ s2)
| lang_or_l r1 r2 s : lang r1 s → lang (Or r1 r2) s
| lang_or_r r1 r2 s : lang r2 s → lang (Or r1 r2) s
| lang_many_nil r : lang (Many r) ""
| lang_many_cons r s1 s2 : lang r s1 → lang (Many r) s2 → lang (Many r) (s1 ++ s2).

End RegExp.

(** ** Character classes of the email pattern *)

Definition code (c : ascii) : nat := nat_of_ascii c.

Definition in_range (lo hi : nat) (c : ascii) : bool :=
  (lo <=? code c)%nat && (code c <=? hi)%nat.

Definition is_char (d c : ascii) : bool := Ascii.eqb d c.

(** [\s], on code units below 256: tab, line feed, vertical tab, form feed,
    carriage return, space and the no-break space. *)
Definition is_space (c : ascii) : bool :=
  in_range 9 13 c || (code c =? 32)%nat || (code c =? 160)%nat.

(** [.]: every code unit but the line terminators. *)
Definition is_dot (c : ascii) : bool :=
  negb ((code c =? 10)%nat || (code c =? 13)%nat).

(** [[0-9]] *)
Definition is_digit (c : ascii) : bool := in_range 48 57 c.

(** [[a-zA-Z]] *)
Definition is_letter (c : ascii) : bool := in_range 97 122 c || in_range 65 90 c.

(** [[a-zA-Z\-0-9]] *)
Definition is_label_char (c : ascii) : bool :=
  is_letter c || is_char "-" c || is_digit c.

(** The negated class of the local part: every code unit but
    [< > ( ) [ ] \ . , ; :], white space, [@] and the double quote. *)
Definition is_atom_char (c : ascii) : bool :=
  negb (is_char "<" c || is_char ">" c || is_char "(" c || is_char ")" c
        || is_char "[" c || is_char "]" c || is_char "\" c || is_char "." c
        || is_char "," c || is_char ";" c || is_char ":" c || is_space c
        || is_char "@" c || (code c =? 34)%nat).

Import RegExp.

Definition lit (c : ascii) : re := Class (is_char c).

Definition quote : re := Class (fun c => (code c =? 34)%nat).

(** The first group of the pattern: one or more atom characters, then any
    number of groups made of a dot and one or more atom characters; or a
    double quote, one or more [.] characters and a double quote. *)
Definition local_part : re :=
  Or (Seq (some (Class is_atom_char))
          (Many (Seq (lit ".") (some (Class is_atom_char)))))
     (Seq quote (Seq (some (Class is_dot)) quote)).

(** The group after the [@]: four runs of one to three digits, separated by
    dots, between square brackets; or one or more labels of [[a-zA-Z\-0-9]]
    characters, each followed by a dot, and then two or more letters. *)
Definition domain_part : re :=
  let octet := between 1 3 (Class is_digit) in
  Or (Seq (lit "[")
       (Seq octet (Seq (lit ".") (Seq octet (Seq (lit ".")
         (Seq octet (Seq (lit ".") (Seq octet (lit "]")))))))))
     (Seq (some (Seq (some (Class is_label_char)) (lit ".")))
          (at_least 2 (Class is_letter))).

(** The pattern of [validateEmail], between its [^] and [$]. *)
Definition email_re : re := Seq local_part (Seq (lit "@") domain_part).

(** [String.prototype.toLowerCase] on code units below 256: the letters A-Z
    and the capital letters of the Latin-1 block (0xC0-0xDE but the
    multiplication sign 0xD7) move 32 up. *)
Definition lower_char (c : ascii) : ascii :=
  if in_range 65 90 c || (in_range 192 222 c && negb (code c =? 215)%nat)
  then ascii_of_nat (code c + 32)
  else c.

Fixpoint toLowerCase (s : string) : string :=
  match s with
  | EmptyString => EmptyString
  | String c s' => String (lower_char c) (toLowerCase s')
  end.

Definition validateEmail (email : string) : bool :=
  test email_re (toLowerCase email).

Local Open Scope list_scope.

(** ** Values, objects and promises *)

(** The values the module handles are primitives and functions.  A function
    is known by a number; number 0 is the empty function [function () { }]
    of the default configuration. *)
Inductive value : Type :=
| VUndefined
| VNull
| VBool (b : bool)
| VNum (n : Z)
| VStr (s : string)
| VFun (f : nat).

Global Instance value_eq_dec : EqDecision value.
Proof. solve_decision. Defined.

Definition typeof (v : value) : string :=
  match v with
  | VUndefined => "undefined"
  | VNull => "object"
  | VBool _ => "boolean"
  | VNum _ => "number"
  | VStr _ => "string"
  | VFun _ => "function"
  end.

(** [typeof v === 'string'] and [typeof v === 'function'] *)
Definition is_string (v : value) : bool := String.eqb (typeof v) "string".

Definition is_function (v : value) : bool := String.eqb (typeof v) "function".

(** A JS object used as a record of named properties. *)
Abbreviation obj := (gmap string value).

(** [o.k]: a missing property reads as [undefined]. *)
Definition prop (o : obj) (k : string) : value := default VUndefined (o !! k).

(** [{...a, ...b}]: the properties of [b] win. *)
Definition spread (a b : obj) : obj := b ∪ a.

(** [JSON.stringify] leaves out the properties whose value is [undefined] or
    a function.  The text it produces is kept as the document it denotes, so
    that [JSON.parse] of it is the identity. *)
Definition in_json (v : value) : option value :=
  match v with
  | VUndefined | VFun _ => None
  | _ => Some v
  end.

Definition JSON_stringify (o : obj) : obj := omap in_json o.

(** A call of [resolve] or [reject]; also the answer of a collaborator whose
    promise fulfils with a result or rejects with an error. *)
Inductive settle (A : Type) : Type :=
| Resolve (a : A)
| Reject (e : value).
Arguments Resolve {A} a.
Arguments Reject {A} e.

(** The calls of [resolve] and [reject] on one promise, oldest first. *)
Abbreviation promise A := (list (settle A)).

(** Only the first call settles the promise; with no call it stays pending. *)
Definition state {A} (p : promise A) : option (settle A) := head p.

(** ** Notifications, requests and the collaborators *)

Record Notification : Type := {
  _notificationId : value;
  _messageId : value;
  title : value;
  body : value;
  data : option obj;
  _data : option obj
}.

(** [message._data = x] *)
Definition set__data (x : option obj) (n : Notification) : Notification :=
  {| _notificationId := _notificationId n; _messageId := _messageId n;
     title := title n; body := body n; data := data n; _data := x |}.

Record NotificationOpen : Type := {
  action : value;
  notification : Notification
}.

(** What [displayLocalNotification] builds with
    [new firebase.notifications.Notification]. *)
Record LocalNotification : Type := {
  show_in_foreground : bool;
  notificationId : value;
  local_title : value;
  local_body : value;
  local_data : option obj;
  sound : value;
  bigPicture : value;
  channelId : string;
  smallIcon : string;
  color : string;
  priority : string;
  vibrate : Z
}.

(** The argument of [fetch]; [payload] is the [body] option. *)
Record Request : Type := {
  url : string;
  method : string;
  headers : obj;
  payload : obj
}.

(** The answers of the collaborators: [Platform.OS]; the promises of
    [firebase.messaging()] ([getToken] gives a token or nothing) and of
    [firebase.notifications()]; the five getters of [DeviceInfo]; what a
    [fetch] ends with, after [res.json()]; [Date.now()]; and, for the
    functions of the host application that serve as tap callback, whether
    the function with that number returns on that argument ([true]) or
    throws ([false]). *)
Record Env : Type := {
  OS : string;
  messaging_getToken : settle (option string);
  messaging_deleteToken : settle unit;
  getInitialNotification : settle (option NotificationOpen);
  removeDeliveredNotification : value → settle unit;
  createChannelGroup : settle unit;
  createChannel : settle unit;
  displayNotification : LocalNotification → settle unit;
  getUniqueId : settle value;
  getBrand : settle value;
  getModel : settle value;
  getDeviceId : settle value;
  getSystemVersion : settle value;
  fetch : Request → settle value;
  Date_now : Z;
  callbackAfterTap_returns : nat → option obj → bool
}.

(** One argument of [console.log]. *)
Inductive logged : Type :=
| LVal (v : value)
| LObj (o : obj)
| LNotification (n : Notification).

(** The state of the module and its trace on the collaborators.
    - [config] is the private field [#config].
    - [storage] and [storage_config] are [AsyncStorage], which always
      fulfils.  Its entry ['config'] is written only with [JSON.stringify]
      and read only with [JSON.parse]; it is kept apart, as a document.
    - [requests] are the calls of [fetch] and [console] those of
      [console.log], oldest first.
    - [taps] are the calls of [callbackAfterTap], each with the function
      called and its argument ([None] for [undefined]).
    - [removed] are the ids given to [removeDeliveredNotification], [shown]
      the notifications given to [displayNotification], [deleted] the number
      of calls of [deleteToken] and [listeners] the listeners attached. *)
Record World : Type := {
  config : obj;
  storage : gmap string string;
  storage_config : option obj;
  requests : list Request;
  console : list (list logged);
  taps : list (nat * option obj);
  removed : list value;
  shown : list LocalNotification;
  deleted : nat;
  listeners : list string
}.

Definition set_config (c : obj) (w : World) : World :=
  {| config := c; storage := storage w; storage_config := storage_config w;
     requests := requests w; console := console w; taps := taps w;
     removed := removed w; shown := shown w; deleted := deleted w;
     listeners := listeners w |}.

Definition set_storage (m : gmap string string) (w : World) : World :=
  {| config := config w; storage := m; storage_config := storage_config w;
     requests := requests w; console := console w; taps := taps w;
     removed := removed w; shown := shown w; deleted := deleted w;
     listeners := listeners w |}.

Definition set_storage_config (d : option obj) (w : World) : World :=
  {| config := config w; storage := storage w; storage_config := d;
     requests := requests w; console := console w; taps := taps w;
     removed := removed w; shown := shown w; deleted := deleted w;
     listeners := listeners w |}.

Definition set_requests (l : list Request) (w : World) : World :=
  {| config := config w; storage := storage w; storage_config := storage_config w;
     requests := l; console := console w; taps := taps w;
     removed := removed w; shown := shown w; deleted := deleted w;
     listeners := listeners w |}.

Definition set_console (l : list (list logged)) (w : World) : World :=
  {| config := config w; storage := storage w; storage_config := storage_config w;
     requests := requests w; console := l; taps := taps w;
     removed := removed w; shown := shown w; deleted := deleted w;
     listeners := listeners w |}.

Definition set_taps (l : list (nat * option obj)) (w : World) : World :=
  {| config := config w; storage := storage w; storage_config := storage_config w;
     requests := requests w; console := console w; taps := l;
     removed := removed w; shown := shown w; deleted := deleted w;
     listeners := listeners w |}.

Definition set_removed (l : list value) (w : World) : World :=
  {| config := config w; storage := storage w; storage_config := storage_config w;
     requests := requests w; console := console w; taps := taps w;
     removed := l; shown := shown w; deleted := deleted w;
     listeners := listeners w |}.

Definition set_shown (l : list LocalNotification) (w : World) : World :=
  {| config := config w; storage := storage w; storage_config := storage_config w;
     requests := requests w; console := console w; taps := taps w;
     removed := removed w; shown := l; deleted := deleted w;
     listeners := listeners w |}.

Definition set_deleted (n : nat) (w : World) : World :=
  {| config := config w; storage := storage w; storage_config := storage_config w;
     requests := requests w; console := console w; taps := taps w;
     removed := removed w; shown := shown w; deleted := n;
     listeners := listeners w |}.

Definition set_listeners (l : list string) (w : World) : World :=
  {| config := config w; storage := storage w; storage_config := storage_config w;
     requests := requests w; console := console w; taps := taps w;
     removed := removed w; shown := shown w; deleted := deleted w;
     listeners := l |}.

(** [AsyncStorage.setItem(k, v)], [getItem(k)] and [removeItem(k)] for the
    plain entries. *)
Definition setItem (k v : string) (w : World) : World :=
  set_storage (<[k := v]> (storage w)) w.

Definition getItem (k : string) (w : World) : option string := storage w !! k.

Definition removeItem (k : string) (w : World) : World :=
  set_storage (delete k (storage w)) w.

(** [AsyncStorage.setItem('config', JSON.stringify(o))] *)
Definition setItem_config (o : obj) (w : World) : World :=
  set_storage_config (Some (JSON_stringify o)) w.

(** [console.log(...)] *)
Definition console_log (args : list logged) (w : World) : World :=
  set_console (console w ++ [args]) w.

Definition log_text (s : string) : World → World := console_log [LVal (VStr s)].

(** A string or [null] read from the store, as a value. *)
Definition of_item (t : option string) : value :=
  match t with
  | Some s => VStr s
  | None => VNull
  end.

(** Truth of a string or [null]: [null] and the empty string are falsy. *)
Definition truthy (t : option string) : bool :=
  match t with
  | Some s => negb (String.eqb s "")
  | None => false
  end.

(** The configuration of a fresh instance. *)
Definition default_config : obj :=
  list_to_map [("apiKey", VStr ""); ("userEmail", VStr ""); ("bundleId", VStr "");
               ("callbackAfterTap", VFun 0)].

(** The world of a process that has just loaded the module, with what the
    store kept from earlier runs. *)
Definition fresh (items : gmap string string) (doc : option obj) : World :=
  {| config := default_config; storage := items; storage_config := doc;
     requests := []; console := []; taps := []; removed := []; shown := [];
     deleted := 0; listeners := [] |}.

(** ** The operations of [SetrowRNPush] *)

Definition register_url : string := "https://push.setrowid.com/mobile/v1/register.php".
Definition update_url : string := "https://push.setrowid.com/mobile/v1/update.php".
Definition delete_url : string := "https://push.setrowid.com/mobile/v1/delete.php".
Definition log_url : string := "https://push.setrowid.com/mobile/v1/log.php".

(** [sendRequest(url, headers, body, method)]: the call of [fetch] is made at
    once; the promise resolves with the parsed answer or rejects with the
    error of [fetch]. *)
Definition sendRequest (env : Env) (url_ : string) (headers_ body_ : obj)
    (method_ : string) (w : World) : settle value * World :=
  let r := {| url := url_; method := method_;
              headers := spread (list_to_map [("Accept", VStr "application/json");
                                              ("Content-Type", VStr "application/json")])
                                headers_;
              payload := JSON_stringify body_ |} in
  (fetch env r, set_requests (requests w ++ [r]) w).

(** [sendRequest(...).then(res => console.log(res))] *)
Definition sendRequest_logged (env : Env) (url_ : string) (headers_ body_ : obj)
    (method_ : string) (w : World) : World :=
  match sendRequest env url_ headers_ body_ method_ w with
  | (Resolve res, w1) => console_log [LVal res] w1
  | (Reject _, w1) => w1
  end.

(** [getDeviceInfo()]: the first getter that fails rejects the promise. *)
Definition getDeviceInfo (env : Env) : settle obj :=
  match getUniqueId env with Reject e => Reject e | Resolve uid =>
  match getBrand env with Reject e => Reject e | Resolve brand =>
  match getModel env with Reject e => Reject e | Resolve model =>
  match getDeviceId env with Reject e => Reject e | Resolve id =>
  match getSystemVersion env with Reject e => Reject e | Resolve version =>
    Resolve (list_to_map [("deviceOs", VStr (OS env)); ("deviceUniqueId", uid);
                          ("deviceBrand", brand); ("deviceModel", model);
                          ("deviceId", id); ("deviceOsVersion", version)])
  end end end end end.

(** The test of [setEmail] and of the second [if] of [checkParams]:
    [typeof v !== 'string' || (v.length > 0 && !this.validateEmail(v))]. *)
Definition bad_email (v : value) : bool :=
  negb (is_string v)
  || match v with
     | VStr s => (0 <? String.length s)%nat && negb (validateEmail s)
     | _ => false
     end.

(** [setEmail(email)] *)
Definition setEmail (email : value) (w : World) : promise value * World :=
  let p1 := if bad_email email then [Reject (VStr "Email must be valid")] else [] in
  let w1 := set_config (<["userEmail" := email]> (config w)) w in
  let w2 := setItem_config (config w1) w1 in
  (p1 ++ [Resolve VNull], w2).

(** [setCallback(callback)] *)
Definition setCallback (callback : value) (w : World) : promise value * World :=
  let p1 := match callback with
            | VFun _ => []
            | _ => [Reject (VStr "Callback must be a function")]
            end in
  (p1 ++ [Resolve VUndefined],
   set_config (<["callbackAfterTap" := callback]> (config w)) w).

(** The calls of [reject] that [checkParams] makes on a merged
    configuration, in the order of its four [if]s. *)
Definition rejections (c : obj) : list (settle value) :=
  (if is_string (prop c "apiKey") then [] else [Reject (VStr "Key must be string")])
  ++ (if bad_email (prop c "userEmail") then [Reject (VStr "Email must be valid")] else [])
  ++ (if is_string (prop c "apiKey") then [] else [Reject (VStr "Bundle ID must be string")])
  ++ (if is_function (prop c "callbackAfterTap") then []
      else [Reject (VStr "Callback must be function")]).

(** A merged configuration that passes the four [if]s of [checkParams]. *)
Definition valid_config (c : obj) : bool :=
  is_string (prop c "apiKey") && negb (bad_email (prop c "userEmail"))
  && is_function (prop c "callbackAfterTap").

(** [checkParams(config)] *)
Definition checkParams (cfg : obj) (w : World) : promise value * World :=
  let w1 := set_config (spread (config w) cfg) w in
  let w2 := setItem_config (config w1) w1 in
  (rejections (config w1) ++ [Resolve VNull], w2).

(** [createAndroidChannel(createChannelGroup)] *)
Definition createAndroidChannel (env : Env) (group : bool) (w : World)
    : promise value * World :=
  if String.eqb (OS env) "android" then
    if group then
      match createChannelGroup env with
      | Resolve _ => ([Resolve VUndefined], log_text "Android channel group created." w)
      | Reject _ => ([Reject (VStr "Error when creating channel")], w)
      end
    else
      match createChannel env with
      | Resolve _ => ([Resolve VUndefined], log_text "Android channel created." w)
      | Reject _ => ([Reject (VStr "Error when creating channel")], w)
      end
  else if String.eqb (OS env) "ios" then ([Resolve VUndefined], w)
  else ([], w).

(** [getToken()].  An [await] that throws ends the executor without a call of
    [resolve] or [reject]. *)
Definition getToken (env : Env) (w : World) : promise value * World :=
  let w1 := setItem "isSubscribed" "true" w in
  let fcmToken := getItem "fcmToken" w1 in
  if truthy fcmToken then
    ([Resolve (of_item fcmToken)], log_text "Token exists in local storage" w1)
  else
    match messaging_getToken env with
    | Reject _ => ([], w1)
    | Resolve fcmToken' =>
        match fcmToken' with
        | Some t =>
            if truthy fcmToken' then
              let w2 := setItem "fcmToken" t w1 in
              match getDeviceInfo env with
              | Reject _ => ([], w2)
              | Resolve deviceInfo =>
                  let reqBody :=
                    spread (list_to_map [("apiKey", prop (config w2) "apiKey");
                                         ("email", prop (config w2) "userEmail");
                                         ("fcmToken", VStr t)])
                           deviceInfo in
                  let w3 := sendRequest_logged env register_url ∅ reqBody "POST" w2 in
                  ([Resolve (VStr t)], log_text "Getting new token..." w3)
              end
            else ([Reject (VBool false)], w1)
        | None => ([Reject (VBool false)], w1)
        end
    end.

(** [sendLog(eventType, notification, customParam)].  It is never awaited:
    where it throws, nothing more happens. *)
Definition sendLog (env : Env) (eventType : string) (n : Notification)
    (customParam : obj) (w : World) : World :=
  match _data n, data n, storage_config w with
  | Some d_, Some d, Some localConfig =>
      let sendId := if decide (prop d_ "sendId" = VUndefined) then VNum 0
                    else prop d_ "sendId" in
      let tag := if decide (prop d "tag" = VUndefined) then VStr ""
                 else prop d "tag" in
      let locaFcmToken := getItem "fcmToken" w in
      let reqBody :=
        spread (list_to_map [("apiKey", prop localConfig "apiKey");
                             ("fcmToken", of_item locaFcmToken);
                             ("event", VStr eventType);
                             ("sendId", sendId);
                             ("tag", tag);
                             ("os", VStr (OS env))])
               customParam in
      let reqBody :=
        if String.eqb eventType "display"
        then <["displayedAt" := VNum (Date_now env / 1000)]> reqBody
        else if String.eqb eventType "tap"
        then <["tappedAt" := VNum (Date_now env / 1000)]> reqBody
        else reqBody in
      let w1 := console_log [LVal (VStr "Log body:"); LObj reqBody] w in
      sendRequest_logged env log_url ∅ reqBody "POST" w1
  | _, _, _ => w
  end.

(** [this.#config.callbackAfterTap(x)].  Calling what is not a function
    throws before any call is made.  A function is called, and then returns
    or throws as the environment says; it is taken not to touch the module.
    The flag tells whether the call returned. *)
Definition call_callbackAfterTap (env : Env) (x : option obj) (w : World)
    : bool * World :=
  match prop (config w) "callbackAfterTap" with
  | VFun f => (callbackAfterTap_returns env f x, set_taps (taps w ++ [(f, x)]) w)
  | _ => (false, w)
  end.

(** What both tap paths do with the notification that was opened: remove
    it, call back, log.  The flag tells whether the steps ran to their end;
    it is [false] where one of them throws. *)
Definition handle_tap (env : Env) (n : Notification) (customParam : obj)
    (w : World) : bool * World :=
  let w1 := set_removed (removed w ++ [_notificationId n]) w in
  match removeDeliveredNotification env (_notificationId n) with
  | Reject _ => (false, w1)
  | Resolve _ =>
      match call_callbackAfterTap env (data n) w1 with
      | (false, w2) => (false, w2)
      | (true, w2) => (true, sendLog env "tap" n customParam w2)
      end
  end.

(** [checkIfOpenedByNotification()] *)
Definition checkIfOpenedByNotification (env : Env) (w : World)
    : promise value * World :=
  match getInitialNotification env with
  | Reject _ => ([], w)
  | Resolve (Some notificationOpen) =>
      let w1 := log_text "App is opened because of notification interaction" w in
      match handle_tap env (notification notificationOpen)
                       {["initial" := VBool true]} w1 with
      | (true, w2) => ([Resolve VUndefined], w2)
      | (false, w2) => ([], w2)
      end
  | Resolve None =>
      ([Resolve VUndefined],
       console_log [LVal (VStr "Not opened by notification"); LVal VNull] w)
  end.

(** The handler that [onNotificationOpenedListener] installs. *)
Definition onNotificationOpened (env : Env) (notificationOpen : NotificationOpen)
    (w : World) : World :=
  let w1 := log_text "Event: Notification opened - onNotificationOpened" w in
  snd (handle_tap env (notification notificationOpen) ∅ w1).

(** [displayLocalNotification(notification, dataOnly)] *)
Definition displayLocalNotification (env : Env) (n : Notification)
    (dataOnly : bool) (w : World) : World :=
  match createAndroidChannel env false w with
  | (p, w1) =>
      match state p, data n with
      | Some (Resolve _), Some d =>
          let notID := if dataOnly then _messageId n else _notificationId n in
          let title_ := if dataOnly then prop d "title" else title n in
          let body_ := if dataOnly then prop d "body" else body n in
          let localNotification :=
            {| show_in_foreground := true; notificationId := notID;
               local_title := title_; local_body := body_;
               local_data := _data n;
               sound := prop d "sound"; bigPicture := prop d "image";
               channelId := "push"; smallIcon := "ic_notification";
               color := "#00FF00"; priority := "Max"; vibrate := 1000 |} in
          let w2 := set_shown (shown w1 ++ [localNotification]) w1 in
          match displayNotification env localNotification with
          | Resolve _ =>
              let w3 := if String.eqb (OS env) "android"
                        then sendLog env "display" n ∅ w2 else w2 in
              log_text "Local notification has been displayed" w3
          | Reject err => console_log [LVal err] w2
          end
      | _, _ => w1
      end
  end.


Definition onNotification (env : Env) (n : Notification) (w : World) : World :=
  displayLocalNotification env n false
    (console_log [LVal (VStr "Event: Notification received - onNotification");
                  LNotification n] w).

Definition onNotificationDisplayed (env : Env) (n : Notification) (w : World)
    : World :=
  let w1 := console_log
              [LVal (VStr "Event: Notification displayed - onNotificationDisplayed");
               LNotification n] w in
  if String.eqb (OS env) "ios" then sendLog env "display" n ∅ w1 else w1.

(** The handler that [onTokenRefreshListener] installs. *)
Definition onTokenRefresh (env : Env) (newFcmToken : string) (w : World) : World :=
  if decide (getItem "isSubscribed" w = Some "true") then
    let oldFcmToken := getItem "fcmToken" w in
    if decide (oldFcmToken = Some newFcmToken) then w
    else
      let w1 := setItem "fcmToken" newFcmToken w in
      match getDeviceInfo env with
      | Reject _ => w1
      | Resolve deviceInfo =>
          let reqBody :=
            spread (list_to_map [("apiKey", prop (config w1) "apiKey");
                                 ("oldFcmToken", of_item oldFcmToken);
                                 ("newFcmToken", VStr newFcmToken)])
                   deviceInfo in
          snd (sendRequest env update_url ∅ reqBody "PATCH" w1)
      end
  else w.

(** [createListeners()]: the five listeners, in the order of the source. *)
Definition createListeners (w : World) : World :=
  set_listeners (listeners w ++ ["onNotificationOpened"; "onNotificationDisplayed";
                                 "onNotification"; "onMessage"; "onTokenRefresh"]) w.

(** [init(config)]: each step of the chain runs when the one before it has
    resolved; the first rejection goes to the [catch]. *)
Definition init (env : Env) (cfg : obj) (w : World) : promise value * World :=
  match checkParams cfg w with
  | (p1, w1) =>
      match state p1 with
      | None => ([], w1)
      | Some (Reject err) => ([Reject err], w1)
      | Some (Resolve _) =>
          match checkIfOpenedByNotification env w1 with
          | (p2, w2) =>
              match state p2 with
              | None => ([], w2)
              | Some (Reject err) => ([Reject err], w2)
              | Some (Resolve _) =>
                  match createAndroidChannel env true w2 with
                  | (p3, w3) =>
                      match state p3 with
                      | None => ([], w3)
                      | Some (Reject err) => ([Reject err], w3)
                      | Some (Resolve _) =>
                          ([Resolve VUndefined], createListeners w3)
                      end
                  end
              end
          end
      end
  end.

(** [unsubscribe()] *)
Definition unsubscribe (env : Env) (w : World) : promise value * World :=
  let fcmTokenToDelete := getItem "fcmToken" w in
  let w1 := set_deleted (S (deleted w)) w in
  match messaging_deleteToken env with
  | Reject err => ([Reject err], w1)
  | Resolve _ =>
      let w2 := setItem "isSubscribed" "false" (removeItem "fcmToken" w1) in
      match fcmTokenToDelete with
      | Some t =>
          if truthy fcmTokenToDelete then
            let reqBody := list_to_map [("apiKey", prop (config w2) "apiKey");
                                        ("fcmToken", VStr t)] in
            match sendRequest env delete_url ∅ reqBody "DELETE" w2 with
            | (Resolve res, w3) => ([Resolve VUndefined], console_log [LVal res] w3)
            | (Reject err, w3) => ([Reject err], w3)
            end
          else
            ([Resolve VUndefined],
             log_text "fcmToken not found in local storage when unsubscribing" w2)
      | None =>
          ([Resolve VUndefined],
           log_text "fcmToken not found in local storage when unsubscribing" w2)
      end
  end.

(** [checkIfSubscribed()] *)
Definition checkIfSubscribed (w : World) : bool :=
  bool_decide (getItem "isSubscribed" w = Some "true").

(** [backgroundMessaging(message)] *)
Definition backgroundMessaging (env : Env) (message : Notification) (w : World)
    : promise value * World :=
  let w1 := console_log [LNotification message] w in
  let message' := set__data (data message) message in
  ([Resolve VUndefined], displayLocalNotification env message' true w1).

(** ** Permissions *)

(** The answers of the collaborators that grant permissions:
    [firebase.messaging().hasPermission()] and [requestPermission()], and
    [PermissionsAndroid.check] and [request] for
    [WRITE_EXTERNAL_STORAGE]. *)
Record Permissions : Type := {
  hasPermission : settle bool;
  messaging_requestPermission : settle unit;
  PermissionsAndroid_check : settle bool;
  PermissionsAndroid_request : settle string
}.

(** [PermissionsAndroid.RESULTS.GRANTED] *)
Definition GRANTED : string := "granted".

(** [checkPermission()]: an [await] that throws leaves the promise pending. *)
Definition checkPermission (pm : Permissions) : promise value :=
  match hasPermission pm with
  | Reject _ => []
  | Resolve enabled =>
      if enabled then [Resolve (VStr "User has permission")]
      else [Reject (VStr "User doesn't have permission")]
  end.

(** [requestPermission()] *)
Definition requestPermission (pm : Permissions) : promise value :=
  match messaging_requestPermission pm with
  | Resolve _ => [Resolve (VStr "Authorized")]
  | Reject _ => [Reject (VStr "Denied")]
  end.

(** [requestPermissionAndGetToken()]: a rejection of [requestPermission] or
    of the awaited [getToken] goes to the [catch]. *)
Definition requestPermissionAndGetToken (pm : Permissions) (env : Env) (w : World)
    : promise value * World :=
  match state (requestPermission pm) with
  | None => ([], w)
  | Some (Reject err) => ([Reject err], w)
  | Some (Resolve _) =>
      match getToken env w with
      | (p, w1) =>
          match state p with
          | None => ([], w1)
          | Some (Reject err) => ([Reject err], w1)
          | Some (Resolve token) => ([Resolve token], w1)
          end
      end
  end.

(** [checkExternalStoragePermission()], with the calls it makes on
    [PermissionsAndroid], oldest first.  Neither promise of
    [PermissionsAndroid] has a [catch]. *)
Definition checkExternalStoragePermission (pm : Permissions) (env : Env)
    : promise value * list string :=
  if String.eqb (OS env) "android" then
    match PermissionsAndroid_check pm with
    | Reject _ => ([], ["check"])
    | Resolve granted =>
        if granted then ([Resolve (VStr "Permission granted")], ["check"])
        else
          match PermissionsAndroid_request pm with
          | Reject _ => ([], ["check"; "request"])
          | Resolve result =>
              if String.eqb result GRANTED
              then ([Resolve (VStr "Permission granted")], ["check"; "request"])
              else ([Reject (VStr "No Permission")], ["check"; "request"])
          end
    end
  else ([Resolve (VStr "This only works in Android!")], []).

(** ** What the module may send, and when the store agrees with it *)




(** The stored configuration is what [JSON.stringify] makes of [#config]. *)
Definition in_sync (w : World) : Prop :=
  storage_config w = Some (JSON_stringify (config w)).

(** The listeners of one [createListeners()]. *)
Definition five_listeners : list string :=
  ["onNotificationOpened"; "onNotificationDisplayed"; "onNotification";
   "onMessage"; "onTokenRefresh"].

(** ** Sample collaborators and worlds *)

(** A device on which every collaborator fulfils: the platform, the token the
    push library hands out and the notification that started the process are
    left open. *)
Definition sample_env (os : string) (token : option string)
    (initial : option NotificationOpen) : Env :=
  {| OS := os;
     messaging_getToken := Resolve token;
     messaging_deleteToken := Resolve tt;
     getInitialNotification := Resolve initial;
     removeDeliveredNotification := λ _, Resolve tt;
     createChannelGroup := Resolve tt;
     createChannel := Resolve tt;
     displayNotification := λ _, Resolve tt;
     getUniqueId := Resolve (VStr "uid-1");
     getBrand := Resolve (VStr "Acme");
     getModel := Resolve (VStr "A1");
     getDeviceId := Resolve (VStr "dev-1");
     getSystemVersion := Resolve (VStr "10");
     fetch := λ _, Resolve (VBool true);
     Date_now := 1700000000123;
     callbackAfterTap_returns := λ _ _, true |}.

(** A data message with a title and a body in its data. *)
Definition sample_data : obj :=
  list_to_map [("title", VStr "Sale"); ("body", VStr "Today only");
               ("sendId", VNum 7); ("tag", VStr "promo")].

Definition sample_notification : Notification :=
  {| _notificationId := VStr "n-1"; _messageId := VStr "m-1";
     title := VStr "Outer title"; body := VStr "Outer body";
     data := Some sample_data; _data := Some sample_data |}.

Definition sample_open : NotificationOpen :=
  {| action := VStr "android.intent.action.VIEW";
     notification := sample_notification |}.

(** A first start: nothing in the store. *)
Definition first_start : World := fresh ∅ None.

(** A start with a token in the store but no subscription flag. *)
Definition unsubscribed_start : World := fresh {["fcmToken" := "old-token"]} None.

(** The body that [sendLog] builds, before [JSON.stringify]. *)
Definition log_body (env : Env) (eventType : string) (d_ d localConfig : obj)
    (token : option string) (customParam : obj) : obj :=
  let reqBody :=
    spread (list_to_map
              [("apiKey", prop localConfig "apiKey");
               ("fcmToken", of_item token);
               ("event", VStr eventType);
               ("sendId", if decide (prop d_ "sendId" = VUndefined) then VNum 0
                          else prop d_ "sendId");
               ("tag", if decide (prop d "tag" = VUndefined) then VStr ""
                       else prop d "tag");
               ("os", VStr (OS env))])
           customParam in
  if String.eqb eventType "display"
  then <["displayedAt" := VNum (Date_now env / 1000)]> reqBody
  else if String.eqb eventType "tap"
  then <["tappedAt" := VNum (Date_now env / 1000)]> reqBody
  else reqBody.

(** Permissions that are all granted, and permissions that are all denied. *)
Definition granted_permissions : Permissions :=
  {| hasPermission := Resolve true;
     messaging_requestPermission := Resolve tt;
     PermissionsAndroid_check := Resolve true;
     PermissionsAndroid_request := Resolve GRANTED |}.

Definition denied_permissions : Permissions :=
  {| hasPermission := Resolve false;
     messaging_requestPermission := Reject (VStr "user said no");
     PermissionsAndroid_check := Resolve false;
     PermissionsAndroid_request := Resolve "denied" |}.

(** The sample device, with a device-information getter that fails. *)
Definition no_device_info_env (os : string) (token : option string) : Env :=
  {| OS := os;
     messaging_getToken := Resolve token;
     messaging_deleteToken := Resolve tt;
     getInitialNotification := Resolve None;
     removeDeliveredNotification := λ _, Resolve tt;
     createChannelGroup := Resolve tt;
     createChannel := Resolve tt;
     displayNotification := λ _, Resolve tt;
     getUniqueId := Resolve (VStr "uid-1");
     getBrand := Reject (VStr "no brand");
     getModel := Resolve (VStr "A1");
     getDeviceId := Resolve (VStr "dev-1");
     getSystemVersion := Resolve (VStr "10");
     fetch := λ _, Resolve (VBool true);
     Date_now := 1700000000123;
     callbackAfterTap_returns := λ _ _, true |}.

(** The sample device with a push library that cannot delete its token. *)
Definition failing_delete_env (os : string) : Env :=
  {| OS := os;
     messaging_getToken := Resolve None;
     messaging_deleteToken := Reject (VStr "offline");
     getInitialNotification := Resolve None;
     removeDeliveredNotification := λ _, Resolve tt;
     createChannelGroup := Resolve tt;
     createChannel := Resolve tt;
     displayNotification := λ _, Resolve tt;
     getUniqueId := Resolve (VStr "uid-1");
     getBrand := Resolve (VStr "Acme");
     getModel := Resolve (VStr "A1");
     getDeviceId := Resolve (VStr "dev-1");
     getSystemVersion := Resolve (VStr "10");
     fetch := λ _, Resolve (VBool true);
     Date_now := 1700000000123;
     callbackAfterTap_returns := λ _ _, true |}.

(** The sample device, started by a tap, with a host application whose
    callbacks all throw. *)
Definition throwing_callback_env (os : string) : Env :=
  {| OS := os;
     messaging_getToken := Resolve None;
     messaging_deleteToken := Resolve tt;
     getInitialNotification := Resolve (Some sample_open);
     removeDeliveredNotification := λ _, Resolve tt;
     createChannelGroup := Resolve tt;
     createChannel := Resolve tt;
     displayNotification := λ _, Resolve tt;
     getUniqueId := Resolve (VStr "uid-1");
     getBrand := Resolve (VStr "Acme");
     getModel := Resolve (VStr "A1");
     getDeviceId := Resolve (VStr "dev-1");
     getSystemVersion := Resolve (VStr "10");
     fetch := λ _, Resolve (VBool true);
     Date_now := 1700000000123;
     callbackAfterTap_returns := λ _ _, false |}.

(** A start after an earlier run that subscribed and stored a
    configuration. *)
Definition subscribed_start : World :=
  fresh (<["isSubscribed" := "true"]> {["fcmToken" := "old-token"]})
        (Some {["apiKey" := VStr "key-1"]}).

(** ** Tactics *)

(** Lookup of a literal key in an object literal. *)
Ltac literal_lookup :=
  rewrite ?list_to_map_cons, ?list_to_map_nil;
  repeat (rewrite lookup_insert_ne by discriminate);
  rewrite ?lookup_insert_eq, ?lookup_empty.

(** A literal key is not in a literal list of other keys. *)
Ltac literal_notin :=
  rewrite ?not_elem_of_cons; repeat split; try discriminate; apply not_elem_of_nil.

Ltac world_simpl :=
  cbn [config storage storage_config requests console taps removed shown
       deleted listeners set_config set_storage set_storage_config
       set_requests set_console set_taps set_removed set_shown set_deleted
       set_listeners setItem getItem removeItem setItem_config console_log
       log_text fst snd] in *.

Ltac split_matches :=
  repeat match goal with
         | |- context [match ?x with _ => _ end] => destruct x eqn:?
         end.

(** ** [test] decides the language of a pattern *)

Module RegExpFacts.
Import RegExp.

Lemma append_nil_inv (s1 s2 : string) :
  (s1 ++ s2)%string = "" → s1 = "" ∧ s2 = "".
Proof. destruct s1; simpl; [tauto | discriminate]. Qed.

Lemma nullable_lang (r : re) : nullable r = true ↔ lang r "".
Proof.
  induction r as [| |p|r1 IH1 r2 IH2|r1 IH1 r2 IH2|r1 IH1]; simpl.
  - split; [discriminate | inversion 1].
  - split; [constructor | reflexivity].
  - split; [discriminate | inversion 1].
  - rewrite andb_true_iff, IH1, IH2. split.
    + intros [H1 H2]. apply (lang_seq _ _ "" "" H1 H2).
    + inversion 1 as [| |? ? s1 s2 H1 H2 E| | | |]; subst.
      match goal with E : (_ ++ _)%string = "" |- _ =>
        apply append_nil_inv in E; destruct E; subst end.
      tauto.
  - rewrite orb_true_iff, IH1, IH2. split.
    + intros [H|H]; [apply lang_or_l | apply lang_or_r]; exact H.
    + inversion 1; subst; tauto.
  - split; [constructor | reflexivity].
Qed.

(** A non-empty word of [Many r] starts with a non-empty word of [r]. *)
Lemma lang_many_uncons (r : re) (c : ascii) (s : string) :
  lang (Many r) (String c s) →
  ∃ s1 s2, s = (s1 ++ s2)%string ∧ lang r (String c s1) ∧ lang (Many r) s2.
Proof.
  intros H. remember (Many r) as m eqn:Em. remember (String c s) as cs eqn:Es.
  induction H as [| | | | | |r' s1 s2 H1 _ H2 IH2]; try discriminate.
  injection Em as ->. destruct s1 as [|c1 s1]; simpl in Es.
  - apply IH2; [reflexivity | exact Es].
  - injection Es as Hc Hs. subst. exists s1, s2. auto.
Qed.

Lemma deriv_lang (c : ascii) (r : re) (s : string) :
  lang (deriv c r) s ↔ lang r (String c s).
Proof.
  revert s.
  induction r as [| |p|r1 IH1 r2 IH2|r1 IH1 r2 IH2|r1 IH1]; intros s; simpl.
  - split; inversion 1.
  - split; inversion 1.
  - destruct (p c) eqn:Hp; split.
    + inversion 1; subst. constructor. exact Hp.
    + inversion 1; subst. constructor.
    + inversion 1.
    + inversion 1; subst. congruence.
  - assert (Hseq : ∀ t, lang (Seq (deriv c r1) r2) t → lang (Seq r1 r2) (String c t)).
    { inversion 1 as [| |? ? s1 s2 H1 H2| | | |]; subst.
      apply IH1 in H1. apply (lang_seq _ _ _ _ H1 H2). }
    assert (Hsplit : lang (Seq r1 r2) (String c s) →
              (lang r1 "" ∧ lang r2 (String c s))
              ∨ (∃ s1 s2, s = (s1 ++ s2)%string ∧ lang r1 (String c s1) ∧ lang r2 s2)).
    { inversion 1 as [| |? ? s1 s2 H1 H2| | | |]; subst.
      match goal with E : _ = String c s |- _ => rename E into Hs end.
      destruct s1 as [|c1 s1].
      - left. change (s2 = String c s) in Hs. subst. auto.
      - right. change (String c1 (s1 ++ s2)%string = String c s) in Hs.
        injection Hs as Hc Hs. subst. eauto. }
    destruct (nullable r1) eqn:Hn; split.
    + inversion 1 as [| | |? ? ? H1|? ? ? H1| |]; subst.
      * apply Hseq, H1.
      * apply IH2 in H1. apply nullable_lang in Hn.
        apply (lang_seq _ _ "" _ Hn H1).
    + intros H. apply Hsplit in H as [[_ H2]|(s1 & s2 & -> & H1 & H2)].
      * apply lang_or_r, IH2, H2.
      * apply lang_or_l, lang_seq; [apply IH1, H1 | exact H2].
    + apply Hseq.
    + intros H. apply Hsplit in H as [[H1 _]|(s1 & s2 & -> & H1 & H2)].
      * apply nullable_lang in H1. congruence.
      * apply lang_seq; [apply IH1, H1 | exact H2].
  - split.
    + inversion 1; subst; [apply lang_or_l, IH1 | apply lang_or_r, IH2]; assumption.
    + inversion 1; subst; [apply lang_or_l, IH1 | apply lang_or_r, IH2]; assumption.
  - split.
    + inversion 1 as [| |? ? s1 s2 H1 H2| | | |]; subst.
      apply IH1 in H1. apply (lang_many_cons _ _ _ H1 H2).
    + intros H. apply lang_many_uncons in H as (s1 & s2 & -> & H1 & H2).
      apply lang_seq; [apply IH1, H1 | exact H2].
Qed.

(** [test] is membership of the whole string in the language. *)
Lemma test_lang (r : re) (s : string) : test r s = true ↔ lang r s.
Proof.
  revert r. induction s as [|c s IH]; intros r; simpl.
  - apply nullable_lang.
  - rewrite IH. apply deriv_lang.
Qed.

End RegExpFacts.

(** ** Facts about the store and the trace *)

Lemma truthy_Some (t : string) : truthy (Some t) = true ↔ t ≠ "".
Proof.
  unfold truthy. rewrite negb_true_iff. apply String.eqb_neq.
Qed.

Lemma truthy_of_item (x : option string) :
  truthy x = true → ∃ t, x = Some t ∧ t ≠ "".
Proof.
  destruct x as [t|]; [|discriminate]. intros H. exists t.
  split; [reflexivity | apply truthy_Some, H].
Qed.

Lemma getItem_setItem_ne (k k' v : string) (w : World) :
  k ≠ k' → getItem k' (setItem k v w) = getItem k' w.
Proof. intros H. world_simpl. apply lookup_insert_ne, H. Qed.

Lemma getItem_setItem_eq (k v : string) (w : World) :
  getItem k (setItem k v w) = Some v.
Proof. world_simpl. apply lookup_insert_eq. Qed.

Lemma setItem_setItem (k v : string) (w : World) :
  setItem k v (setItem k v w) = setItem k v w.
Proof. unfold setItem, set_storage. cbn. f_equal. apply insert_insert_eq. Qed.

Lemma sendRequest_requests env u h b m w :
  requests (snd (sendRequest env u h b m w))
  = requests w ++ [{| url := u; method := m;
                      headers := spread (list_to_map [("Accept", VStr "application/json");
                                                      ("Content-Type", VStr "application/json")]) h;
                      payload := JSON_stringify b |}].
Proof. reflexivity. Qed.

Lemma sendRequest_logged_fields env u h b m w :
  let w' := sendRequest_logged env u h b m w in
  requests w' = requests (snd (sendRequest env u h b m w))
  ∧ storage w' = storage w ∧ storage_config w' = storage_config w
  ∧ config w' = config w ∧ taps w' = taps w ∧ shown w' = shown w
  ∧ listeners w' = listeners w.
Proof.
  unfold sendRequest_logged, sendRequest. destruct (fetch env _); cbn; auto 10.
Qed.

(** ** [getToken]: the read-through cache *)

(** With a token in the store, [getToken] resolves with it and neither asks
    the push library nor calls the backend. *)
Lemma getToken_cached (env : Env) (w : World) (t : string) :
  getItem "fcmToken" w = Some t → t ≠ "" →
  getToken env w
  = ([Resolve (VStr t)],
     log_text "Token exists in local storage" (setItem "isSubscribed" "true" w)).
Proof.
  intros Hc Ht. unfold getToken.
  rewrite getItem_setItem_ne by discriminate. rewrite Hc.
  apply truthy_Some in Ht. rewrite Ht. reflexivity.
Qed.

(** What [getToken] does to the plain entries of the store, case by case. *)
Lemma getToken_storage (env : Env) (w : World) :
  storage (snd (getToken env w))
  = if truthy (getItem "fcmToken" w) then <["isSubscribed" := "true"]> (storage w)
    else match messaging_getToken env with
         | Resolve (Some t) =>
             if truthy (Some t)
             then <["fcmToken" := t]> (<["isSubscribed" := "true"]> (storage w))
             else <["isSubscribed" := "true"]> (storage w)
         | _ => <["isSubscribed" := "true"]> (storage w)
         end.
Proof.
  unfold getToken. rewrite getItem_setItem_ne by discriminate.
  destruct (truthy (getItem "fcmToken" w)); [reflexivity|].
  destruct (messaging_getToken env) as [[t|]|e]; try reflexivity.
  destruct (truthy (Some t)); [|reflexivity].
  destruct (getDeviceInfo env) as [info|e]; [|reflexivity].
  cbn [snd log_text console_log set_console storage].
  apply sendRequest_logged_fields.
Qed.

(** What [getToken] leaves in the store under ['fcmToken'] is what it
    resolved with, whenever it settled and left a token there. *)
Lemma getToken_result_is_cached (env : Env) (w : World) (t : string) (x : settle value) :
  getItem "fcmToken" (snd (getToken env w)) = Some t → t ≠ "" →
  state (fst (getToken env w)) = Some x → x = Resolve (VStr t).
Proof.
  intros Hc Ht Hx. apply truthy_Some in Ht.
  unfold getItem in Hc. rewrite getToken_storage in Hc.
  unfold getToken in Hx. rewrite getItem_setItem_ne in Hx by discriminate.
  destruct (truthy (getItem "fcmToken" w)) eqn:Hw.
  - rewrite lookup_insert_ne in Hc by discriminate.
    unfold getItem in Hx. rewrite Hc in Hx. cbn in Hx. congruence.
  - assert (Hold : (<["isSubscribed" := "true"]> (storage w) : gmap string string)
                     !! "fcmToken" = Some t → False).
    { rewrite lookup_insert_ne by discriminate. intros E.
      unfold getItem in Hw. rewrite E in Hw. congruence. }
    destruct (messaging_getToken env) as [[t'|]|e]; try (exfalso; auto; fail).
    destruct (truthy (Some t')); [|exfalso; auto].
    rewrite lookup_insert_eq in Hc. injection Hc as ->.
    destruct (getDeviceInfo env); cbn in Hx; congruence.
Qed.

Lemma getToken_isSubscribed (env : Env) (w : World) :
  getItem "isSubscribed" (snd (getToken env w)) = Some "true".
Proof.
  unfold getItem. rewrite getToken_storage.
  destruct (truthy (getItem "fcmToken" w)); [apply lookup_insert_eq|].
  destruct (messaging_getToken env) as [[t|]|e]; try apply lookup_insert_eq.
  destruct (truthy (Some t)); [|apply lookup_insert_eq].
  rewrite lookup_insert_ne by discriminate. apply lookup_insert_eq.
Qed.

(** The backend is called only from the branch of the empty cache. *)
Lemma getToken_requests_cached (env : Env) (w : World) :
  truthy (getItem "fcmToken" w) = true →
  requests (snd (getToken env w)) = requests w.
Proof.
  intros H. destruct (truthy_of_item _ H) as (t & Hc & Ht).
  rewrite (getToken_cached env w t Hc Ht). reflexivity.
Qed.

(** C1. When a first [getToken] leaves a token in the store, a second
    [getToken] resolves with that same token, which is also what the first
    one resolved with, and it makes no call to the backend and does not
    change the store; the request to [register.php] belongs to the branch
    of the empty cache only. *)
Theorem getToken_twice_cached (env1 env2 : Env) (w : World) (t : string) :
  getItem "fcmToken" (snd (getToken env1 w)) = Some t → t ≠ "" →
  fst (getToken env2 (snd (getToken env1 w))) = [Resolve (VStr t)]
  ∧ (∀ x, state (fst (getToken env1 w)) = Some x → x = Resolve (VStr t))
  ∧ requests (snd (getToken env2 (snd (getToken env1 w))))
    = requests (snd (getToken env1 w))
  ∧ storage (snd (getToken env2 (snd (getToken env1 w))))
    = storage (snd (getToken env1 w))
  ∧ (∀ env w0, requests (snd (getToken env w0)) ≠ requests w0 →
               truthy (getItem "fcmToken" w0) = false).
Proof.
  intros Hc Ht. rewrite (getToken_cached env2 _ t Hc Ht).
  repeat split.
  - intros x. apply getToken_result_is_cached; assumption.
  - cbn [snd log_text console_log set_console storage setItem set_storage].
    apply insert_id. apply getToken_isSubscribed.
  - intros env w0 Hr. destruct (truthy (getItem "fcmToken" w0)) eqn:E; [|reflexivity].
    exfalso. apply Hr. apply getToken_requests_cached, E.
Qed.

Lemma getToken_twice_cached_witness :
  let env := sample_env "android" (Some "fcm-1") None in
  getItem "fcmToken" (snd (getToken env first_start)) = Some "fcm-1"
  ∧ fst (getToken env (snd (getToken env first_start))) = [Resolve (VStr "fcm-1")]
  ∧ length (requests (snd (getToken env (snd (getToken env first_start))))) = 1%nat.
Proof.
  intros env.
  assert (H1 : getItem "fcmToken" (snd (getToken env first_start)) = Some "fcm-1")
    by reflexivity.
  assert (H2 : "fcm-1" ≠ "") by discriminate.
  destruct (getToken_twice_cached env env first_start "fcm-1" H1 H2)
    as (Hres & _ & Hreq & _).
  split; [exact H1|]. split; [exact Hres|].
  rewrite Hreq. reflexivity.
Defined.

(** ** [getToken] and the subscription flag *)

(** C9. [getToken] writes ['true'] under ['isSubscribed'] before anything
    else: it behaves as on a store where the flag was already set, and
    after it [checkIfSubscribed] answers [true].  That holds also when the
    cache is empty and the push library hands out no token: the promise
    rejects with [false], no token is stored, no request is sent, and
    [checkIfSubscribed] still answers [true]. *)
Theorem getToken_sets_isSubscribed_first (env : Env) (w : World) :
  getToken env w = getToken env (setItem "isSubscribed" "true" w)
  ∧ getItem "isSubscribed" (snd (getToken env w)) = Some "true"
  ∧ checkIfSubscribed (snd (getToken env w)) = true
  ∧ (truthy (getItem "fcmToken" w) = false →
     messaging_getToken env = Resolve None →
     fst (getToken env w) = [Reject (VBool false)]
     ∧ getItem "fcmToken" (snd (getToken env w)) = getItem "fcmToken" w
     ∧ requests (snd (getToken env w)) = requests w
     ∧ checkIfSubscribed (snd (getToken env w)) = true).
Proof.
  assert (Hsub : checkIfSubscribed (snd (getToken env w)) = true).
  { unfold checkIfSubscribed. apply bool_decide_eq_true, getToken_isSubscribed. }
  split; [|split; [|split; [exact Hsub|]]].
  - unfold getToken at 2. rewrite setItem_setItem. reflexivity.
  - apply getToken_isSubscribed.
  - intros Hempty Hnone.
    assert (E : getToken env w
                = ([Reject (VBool false)], setItem "isSubscribed" "true" w)).
    { unfold getToken. rewrite getItem_setItem_ne by discriminate.
      rewrite Hempty, Hnone. reflexivity. }
    rewrite E in *. cbn [fst snd].
    split; [reflexivity|]. split; [|split; [reflexivity | exact Hsub]].
    apply getItem_setItem_ne. discriminate.
Qed.

Lemma getToken_sets_isSubscribed_first_witness :
  let env := sample_env "ios" None None in
  fst (getToken env first_start) = [Reject (VBool false)]
  ∧ getItem "fcmToken" (snd (getToken env first_start)) = None
  ∧ checkIfSubscribed (snd (getToken env first_start)) = true.
Proof.
  intros env.
  destruct (getToken_sets_isSubscribed_first env first_start)
    as (_ & _ & _ & H).
  destruct H as (Hp & Hc & _ & Hs); [reflexivity | reflexivity |].
  split; [exact Hp|]. split; [|exact Hs].
  rewrite Hc. reflexivity.
Defined.

(** ** [validateEmail] *)

(** C7. [validateEmail] accepts [a@b.com] and refuses [a@@b] and
    [a b@c.com]. *)
Theorem validateEmail_examples :
  validateEmail "a@b.com" = true
  ∧ validateEmail "a@@b" = false
  ∧ validateEmail "a b@c.com" = false.
Proof. repeat split; vm_compute; reflexivity. Qed.

(** Beyond the three samples: whatever [validateEmail] accepts is, once in
    lower case, a local part, an [@] and a domain part of the pattern. *)
Lemma validateEmail_shape (email : string) :
  validateEmail email = true →
  ∃ l d, toLowerCase email = (l ++ String "@" d)%string
         ∧ RegExp.lang local_part l ∧ RegExp.lang domain_part d.
Proof.
  unfold validateEmail, email_re. intros H.
  apply RegExpFacts.test_lang in H.
  inversion H as [| |? ? l rest Hl Hrest E| | | |]; subst.
  inversion Hrest as [| |? ? at_ d Hat Hd E'| | | |]; subst.
  inversion Hat as [|p c Hc| | | | |]; subst.
  apply Ascii.eqb_eq in Hc. subst c.
  exists l, d. split; [|split; assumption].
  match goal with E : _ = toLowerCase email |- _ => try rewrite <- E end.
  reflexivity.
Qed.

(** ** The token-refresh listener *)

(** The device-information object has its six properties and no other. *)
Lemma getDeviceInfo_lookup (env : Env) (info : obj) (k : string) :
  getDeviceInfo env = Resolve info →
  k ∉ ["deviceOs"; "deviceUniqueId"; "deviceBrand"; "deviceModel"; "deviceId";
       "deviceOsVersion"] →
  info !! k = None.
Proof.
  unfold getDeviceInfo. intros H Hk.
  destruct (getUniqueId env) as [uid|]; [|discriminate].
  destruct (getBrand env) as [brand|]; [|discriminate].
  destruct (getModel env) as [model|]; [|discriminate].
  destruct (getDeviceId env) as [id|]; [|discriminate].
  destruct (getSystemVersion env) as [version|]; [|discriminate].
  assert (E : info = list_to_map
                [("deviceOs", VStr (OS env)); ("deviceUniqueId", uid);
                 ("deviceBrand", brand); ("deviceModel", model);
                 ("deviceId", id); ("deviceOsVersion", version)]) by congruence.
  rewrite E. apply not_elem_of_list_to_map_1. exact Hk.
Qed.

Lemma JSON_stringify_lookup (o : obj) (k : string) :
  JSON_stringify o !! k = o !! k ≫= in_json.
Proof. unfold JSON_stringify. apply lookup_omap. Qed.

(** C2, as the code has it.  Where the device information can be read: with
    the flag ['isSubscribed'] at ['true'], a new token that differs from the
    cached one is stored and exactly one request goes out, a [PATCH] to the
    update endpoint that carries the old and the new token, and a new token
    equal to the cached one changes nothing; without the flag at ['true']
    the listener changes nothing at all. *)
Theorem onTokenRefresh_when_subscribed (env : Env) (newFcmToken : string)
    (w : World) (info : obj) :
  getDeviceInfo env = Resolve info →
  (getItem "isSubscribed" w = Some "true" →
   getItem "fcmToken" w ≠ Some newFcmToken →
   getItem "fcmToken" (onTokenRefresh env newFcmToken w) = Some newFcmToken
   ∧ ∃ r, requests (onTokenRefresh env newFcmToken w) = requests w ++ [r]
          ∧ url r = update_url ∧ method r = "PATCH"
          ∧ payload r !! "newFcmToken" = Some (VStr newFcmToken)
          ∧ payload r !! "oldFcmToken" = Some (of_item (getItem "fcmToken" w)))
  ∧ (getItem "isSubscribed" w = Some "true" →
     getItem "fcmToken" w = Some newFcmToken →
     onTokenRefresh env newFcmToken w = w)
  ∧ (getItem "isSubscribed" w ≠ Some "true" →
     onTokenRefresh env newFcmToken w = w).
Proof.
  intros Hinfo. unfold onTokenRefresh. repeat split.
  - rewrite decide_True by assumption. rewrite decide_False by assumption.
    rewrite Hinfo. cbn. apply lookup_insert_eq.
  - rewrite decide_True by assumption. rewrite decide_False by assumption.
    rewrite Hinfo. eexists. split; [rewrite sendRequest_requests; reflexivity|].
    cbn [url method payload]. split; [reflexivity|]. split; [reflexivity|].
    rewrite !JSON_stringify_lookup. unfold spread. split.
    + rewrite lookup_union_r
        by (apply (getDeviceInfo_lookup env); [exact Hinfo | literal_notin]).
      literal_lookup. reflexivity.
    + rewrite lookup_union_r
        by (apply (getDeviceInfo_lookup env); [exact Hinfo | literal_notin]).
      literal_lookup. cbn.
      destruct (getItem "fcmToken" w); reflexivity.
  - intros Hs Hc. rewrite decide_True by assumption.
    rewrite decide_True by assumption. reflexivity.
  - intros Hs. rewrite decide_False by assumption. reflexivity.
Qed.

Lemma onTokenRefresh_when_subscribed_witness :
  let env := sample_env "android" (Some "fcm-1") None in
  let w := setItem "isSubscribed" "true" unsubscribed_start in
  getItem "fcmToken" (onTokenRefresh env "new-token" w) = Some "new-token"
  ∧ length (requests (onTokenRefresh env "new-token" w)) = 1%nat
  ∧ onTokenRefresh env "old-token" w = w
  ∧ onTokenRefresh env "new-token" unsubscribed_start = unsubscribed_start.
Proof.
  intros env w.
  assert (Hinfo : ∃ info, getDeviceInfo env = Resolve info) by (eexists; reflexivity).
  destruct Hinfo as [info Hinfo].
  destruct (onTokenRefresh_when_subscribed env "new-token" w info Hinfo)
    as (Hnew & _ & _).
  destruct (onTokenRefresh_when_subscribed env "old-token" w info Hinfo)
    as (_ & Hsame & _).
  destruct (onTokenRefresh_when_subscribed env "new-token" unsubscribed_start info Hinfo)
    as (_ & _ & Hoff).
  destruct Hnew as (Hc & r & Hr & _); [reflexivity | discriminate |].
  split; [exact Hc|]. split; [rewrite Hr; reflexivity|].
  split; [apply Hsame; reflexivity | apply Hoff; discriminate].
Defined.

(** C2 as it is stated fails: without the subscription flag a new token that
    differs from the cached one is neither stored nor reported. *)
Lemma onTokenRefresh_not_subscribed_counterexample :
  let env := sample_env "android" (Some "fcm-1") None in
  let w := unsubscribed_start in
  ¬ (getItem "fcmToken" w ≠ Some "new-token" →
     getItem "fcmToken" (onTokenRefresh env "new-token" w) = Some "new-token"
     ∧ length (requests (onTokenRefresh env "new-token" w))
       = S (length (requests w))).
Proof.
  intros env w H. destruct H as [H _]; [discriminate|]. discriminate H.
Qed.

(** ** [unsubscribe] *)

(** Where the push library deletes its token, [unsubscribe] clears the
    cached token and lowers the flag, with or without a cached token. *)
Lemma unsubscribe_storage (env : Env) (w : World) :
  messaging_deleteToken env = Resolve tt →
  storage (snd (unsubscribe env w))
  = <["isSubscribed" := "false"]> (delete "fcmToken" (storage w)).
Proof.
  intros H. unfold unsubscribe. rewrite H.
  destruct (getItem "fcmToken" w) as [t|]; [|reflexivity].
  destruct (truthy (Some t)); [|reflexivity].
  unfold sendRequest. destruct (fetch env _); reflexivity.
Qed.

(** C6, as the code has it.  With no token in the store, [unsubscribe]
    sends no request at all, whatever the collaborators answer.  Where the
    push library deletes its token, the promise resolves, the message that
    no token was found is logged, the flag ['isSubscribed'] is ['false'] and
    the store holds no token.  Where the push library fails to delete its
    token, the promise rejects with the error of the library, nothing is
    logged and the store, the flag with it, stays as it was. *)
Theorem unsubscribe_without_token (env : Env) (w : World) :
  truthy (getItem "fcmToken" w) = false →
  requests (snd (unsubscribe env w)) = requests w
  ∧ (messaging_deleteToken env = Resolve tt →
     fst (unsubscribe env w) = [Resolve VUndefined]
     ∧ console (snd (unsubscribe env w))
       = console w
         ++ [[LVal (VStr "fcmToken not found in local storage when unsubscribing")]]
     ∧ getItem "isSubscribed" (snd (unsubscribe env w)) = Some "false"
     ∧ checkIfSubscribed (snd (unsubscribe env w)) = false
     ∧ getItem "fcmToken" (snd (unsubscribe env w)) = None)
  ∧ (∀ e, messaging_deleteToken env = Reject e →
          fst (unsubscribe env w) = [Reject e]
          ∧ console (snd (unsubscribe env w)) = console w
          ∧ storage (snd (unsubscribe env w)) = storage w
          ∧ checkIfSubscribed (snd (unsubscribe env w)) = checkIfSubscribed w).
Proof.
  intros Hno. split; [|split].
  - unfold unsubscribe.
    destruct (messaging_deleteToken env); [|reflexivity].
    destruct (getItem "fcmToken" w) as [t|]; [|reflexivity].
    rewrite Hno. reflexivity.
  - intros Hdel.
    assert (Hflag : getItem "isSubscribed" (snd (unsubscribe env w)) = Some "false").
    { unfold getItem. rewrite (unsubscribe_storage env w Hdel).
      apply lookup_insert_eq. }
    split; [|split; [|split; [exact Hflag|split]]].
    + unfold unsubscribe. rewrite Hdel.
      destruct (getItem "fcmToken" w) as [t|]; [rewrite Hno|]; reflexivity.
    + unfold unsubscribe. rewrite Hdel.
      destruct (getItem "fcmToken" w) as [t|]; [rewrite Hno|]; reflexivity.
    + unfold checkIfSubscribed. rewrite Hflag.
      apply bool_decide_eq_false. discriminate.
    + unfold getItem. rewrite (unsubscribe_storage env w Hdel).
      rewrite lookup_insert_ne by discriminate. apply lookup_delete_eq.
  - intros e He. unfold unsubscribe. rewrite He. repeat split.
Qed.

Lemma unsubscribe_without_token_witness :
  let env := sample_env "ios" (Some "fcm-1") None in
  fst (unsubscribe env first_start) = [Resolve VUndefined]
  ∧ requests (snd (unsubscribe env first_start)) = []
  ∧ getItem "isSubscribed" (snd (unsubscribe env first_start)) = Some "false".
Proof.
  intros env.
  destruct (unsubscribe_without_token env first_start) as (Hreq & H & _);
    [reflexivity|].
  destruct H as (Hp & _ & Hflag & _); [reflexivity|].
  split; [exact Hp|]. split; [exact Hreq | exact Hflag].
Defined.

(** C6 as it is stated fails: with no token in the store and a push
    library that cannot delete its token, the promise does not resolve but
    rejects, no message is logged, and a flag that was ['true'] stays
    ['true']. *)
Lemma unsubscribe_without_token_counterexample :
  let env := failing_delete_env "ios" in
  let w := fresh {["isSubscribed" := "true"]} None in
  getItem "fcmToken" w = None
  ∧ state (fst (unsubscribe env w)) = Some (Reject (VStr "offline"))
  ∧ console (snd (unsubscribe env w)) = []
  ∧ getItem "isSubscribed" (snd (unsubscribe env w)) = Some "true"
  ∧ ¬ (getItem "isSubscribed" (snd (unsubscribe env w)) = Some "false").
Proof.
  intros env w. split; [reflexivity|]. split; [reflexivity|].
  split; [reflexivity|]. split; [reflexivity | discriminate].
Qed.

(** ** [checkParams] *)

Lemma rejections_valid (c : obj) : valid_config c = true → rejections c = [].
Proof.
  unfold valid_config, rejections. rewrite !andb_true_iff, negb_true_iff.
  intros [[-> ->] ->]. reflexivity.
Qed.

(** Every call of [reject] in [checkParams] has a string for a reason, and a
    configuration that fails a check gets at least one. *)
Lemma rejections_invalid (c : obj) :
  valid_config c = false →
  ∃ reason later, rejections c = Reject (VStr reason) :: later.
Proof.
  unfold valid_config, rejections. intros H.
  destruct (is_string (prop c "apiKey")); [|cbn; eauto].
  destruct (bad_email (prop c "userEmail")); [cbn; eauto|].
  destruct (is_function (prop c "callbackAfterTap")); [discriminate|cbn; eauto].
Qed.

(** C4. On a configuration that fails a check, [checkParams] calls [reject]
    and goes on: the merged configuration becomes the configuration of the
    module and is written to the store, and [resolve] is called on the
    promise that was already rejected. *)
Theorem checkParams_continues_after_reject (cfg : obj) (w : World) :
  valid_config (spread (config w) cfg) = false →
  ∃ reason later,
    fst (checkParams cfg w) = Reject (VStr reason) :: later ++ [Resolve VNull]
    ∧ state (fst (checkParams cfg w)) = Some (Reject (VStr reason))
    ∧ config (snd (checkParams cfg w)) = spread (config w) cfg
    ∧ storage_config (snd (checkParams cfg w))
      = Some (JSON_stringify (spread (config w) cfg)).
Proof.
  intros H. destruct (rejections_invalid _ H) as (reason & later & E).
  exists reason, later. unfold checkParams. world_simpl. rewrite E.
  repeat split.
Qed.

Lemma checkParams_continues_after_reject_witness :
  let cfg : obj := {["apiKey" := VNum 5]} in
  storage_config first_start = None
  ∧ fst (checkParams cfg first_start)
    = [Reject (VStr "Key must be string"); Reject (VStr "Bundle ID must be string");
       Resolve VNull]
  ∧ ∃ doc, storage_config (snd (checkParams cfg first_start)) = Some doc
           ∧ doc !! "apiKey" = Some (VNum 5).
Proof.
  intros cfg.
  destruct (checkParams_continues_after_reject cfg first_start)
    as (reason & later & _ & _ & _ & Hdoc); [reflexivity|].
  split; [reflexivity|]. split; [reflexivity|].
  eexists. split; [exact Hdoc|]. reflexivity.
Defined.

(** [setEmail] has the same shape: after [reject] it stores the address
    and resolves. *)
Lemma setEmail_continues_after_reject (email : value) (w : World) :
  bad_email email = true →
  fst (setEmail email w) = [Reject (VStr "Email must be valid"); Resolve VNull]
  ∧ prop (config (snd (setEmail email w))) "userEmail" = email
  ∧ storage_config (snd (setEmail email w))
    = Some (JSON_stringify (<["userEmail" := email]> (config w))).
Proof.
  intros H. unfold setEmail. rewrite H. world_simpl.
  repeat split. unfold prop. rewrite lookup_insert_eq. reflexivity.
Qed.

(** ** What the steps of [init] leave alone *)

Lemma sendLog_frame env eventType n customParam w :
  let w' := sendLog env eventType n customParam w in
  config w' = config w ∧ storage w' = storage w
  ∧ storage_config w' = storage_config w ∧ taps w' = taps w
  ∧ shown w' = shown w ∧ listeners w' = listeners w ∧ removed w' = removed w.
Proof.
  unfold sendLog, sendRequest_logged, sendRequest.
  split_matches; cbn; repeat split; congruence.
Qed.

Lemma createAndroidChannel_frame env group w :
  let w' := snd (createAndroidChannel env group w) in
  config w' = config w ∧ storage w' = storage w
  ∧ storage_config w' = storage_config w ∧ taps w' = taps w
  ∧ shown w' = shown w ∧ listeners w' = listeners w ∧ removed w' = removed w
  ∧ requests w' = requests w.
Proof.
  unfold createAndroidChannel. split_matches; cbn; repeat split; congruence.
Qed.

Lemma handle_tap_frame env n customParam w :
  let w' := snd (handle_tap env n customParam w) in
  config w' = config w ∧ storage w' = storage w
  ∧ storage_config w' = storage_config w ∧ shown w' = shown w
  ∧ listeners w' = listeners w.
Proof.
  unfold handle_tap, call_callbackAfterTap.
  destruct (removeDeliveredNotification env _); [|cbn; auto 10].
  cbn [config set_removed].
  destruct (prop (config w) "callbackAfterTap"); try (cbn; auto 10; fail).
  destruct (callbackAfterTap_returns env f (data n)); [|cbn; auto 10].
  cbn [snd].
  pose proof (sendLog_frame env "tap" n customParam
                (set_taps (taps (set_removed (removed w ++ [_notificationId n]) w)
                             ++ [(f, data n)])
                          (set_removed (removed w ++ [_notificationId n]) w)))
    as (H1 & H2 & H3 & _ & H5 & H6 & _).
  rewrite H1, H2, H3, H5, H6. cbn. auto 10.
Qed.

Lemma checkIfOpenedByNotification_frame env w :
  let w' := snd (checkIfOpenedByNotification env w) in
  config w' = config w ∧ storage w' = storage w
  ∧ storage_config w' = storage_config w ∧ shown w' = shown w
  ∧ listeners w' = listeners w.
Proof.
  unfold checkIfOpenedByNotification.
  destruct (getInitialNotification env) as [[no|]|e]; try (cbn; auto 10; fail).
  pose proof (handle_tap_frame env (notification no) {["initial" := VBool true]}
                (log_text "App is opened because of notification interaction" w))
    as H.
  destruct (handle_tap env (notification no) _ _) as [[|] w2]; exact H.
Qed.

(** The cold-start check resolves or stays pending; it never rejects. *)
Lemma checkIfOpenedByNotification_state env w :
  fst (checkIfOpenedByNotification env w) = []
  ∨ fst (checkIfOpenedByNotification env w) = [Resolve VUndefined].
Proof.
  unfold checkIfOpenedByNotification.
  destruct (getInitialNotification env) as [[no|]|e]; cbn; auto.
  destruct (handle_tap env (notification no) _ _) as [[|] w2]; cbn; auto.
Qed.

(** ** [init]: validation comes first *)

Lemma checkParams_state_valid (cfg : obj) (w : World) :
  valid_config (spread (config w) cfg) = true →
  fst (checkParams cfg w) = [Resolve VNull].
Proof.
  intros H. unfold checkParams. world_simpl.
  rewrite (rejections_valid _ H). reflexivity.
Qed.

(** With a configuration that fails a check, [init] rejects with the reason
    of the first failed check and runs no further step. *)
Lemma init_invalid (env : Env) (cfg : obj) (w : World) :
  valid_config (spread (config w) cfg) = false →
  ∃ reason later,
    rejections (spread (config w) cfg) = Reject (VStr reason) :: later
    ∧ init env cfg w = ([Reject (VStr reason)], snd (checkParams cfg w)).
Proof.
  intros H. destruct (rejections_invalid _ H) as (reason & later & E).
  exists reason, later. split; [exact E|].
  unfold init, checkParams. world_simpl. rewrite E. reflexivity.
Qed.

(** With a configuration that passes, [init] goes through the cold-start
    check, the channel and the listeners. *)
Lemma init_valid (env : Env) (cfg : obj) (w : World) :
  valid_config (spread (config w) cfg) = true →
  init env cfg w
  = match checkIfOpenedByNotification env (snd (checkParams cfg w)) with
    | (p2, w2) =>
        match state p2 with
        | None => ([], w2)
        | Some (Reject err) => ([Reject err], w2)
        | Some (Resolve _) =>
            match createAndroidChannel env true w2 with
            | (p3, w3) =>
                match state p3 with
                | None => ([], w3)
                | Some (Reject err) => ([Reject err], w3)
                | Some (Resolve _) => ([Resolve VUndefined], createListeners w3)
                end
            end
        end
    end.
Proof.
  intros H. unfold init.
  pose proof (checkParams_state_valid cfg w H) as Hp.
  destruct (checkParams cfg w) as [p1 w1]. cbn [fst snd] in *. rewrite Hp.
  reflexivity.
Qed.

(** No step of [init] after [checkParams] touches the configuration or the
    store. *)
Lemma init_frame (env : Env) (cfg : obj) (w : World) :
  config (snd (init env cfg w)) = spread (config w) cfg
  ∧ storage_config (snd (init env cfg w))
    = Some (JSON_stringify (spread (config w) cfg))
  ∧ storage (snd (init env cfg w)) = storage w.
Proof.
  destruct (valid_config (spread (config w) cfg)) eqn:Hv.
  - rewrite (init_valid env cfg w Hv).
    pose proof (checkIfOpenedByNotification_frame env (snd (checkParams cfg w)))
      as (H1 & H2 & H3 & _).
    destruct (checkIfOpenedByNotification env (snd (checkParams cfg w)))
      as [p2 w2]. cbn [snd] in H1, H2, H3.
    destruct (state p2) as [[v|e]|]; try (cbn [snd]; rewrite H1, H2, H3; auto; fail).
    pose proof (createAndroidChannel_frame env true w2) as (G1 & G2 & G3 & _).
    destruct (createAndroidChannel env true w2) as [p3 w3]. cbn [snd] in G1, G2, G3.
    destruct (state p3) as [[v'|e]|]; cbn [snd createListeners set_listeners config
                                          storage storage_config];
      rewrite G1, G2, G3, H1, H2, H3; auto.
  - destruct (init_invalid env cfg w Hv) as (reason & later & _ & ->). auto.
Qed.

Lemma spread_lookup (a b : obj) (k : string) :
  spread a b !! k = match b !! k with Some v => Some v | None => a !! k end.
Proof.
  unfold spread. destruct (b !! k) as [v|] eqn:E.
  - apply lookup_union_Some_l, E.
  - apply lookup_union_r, E.
Qed.

Lemma is_string_false_invalid (c : obj) :
  is_string (prop c "apiKey") = false →
  valid_config c = false
  ∧ ∃ later, rejections c = Reject (VStr "Key must be string") :: later.
Proof.
  intros H. unfold valid_config, rejections. rewrite H. cbn. eauto.
Qed.

Lemma stringify_drops_function (c : obj) (k : string) :
  is_function (prop c k) = true → JSON_stringify c !! k = None.
Proof.
  rewrite JSON_stringify_lookup. unfold prop.
  destruct (c !! k) as [[]|]; cbn; congruence.
Qed.

Lemma stringify_keeps_string (c : obj) (k : string) :
  is_string (prop c k) = true → JSON_stringify c !! k = Some (prop c k).
Proof.
  rewrite JSON_stringify_lookup. unfold prop.
  destruct (c !! k) as [[]|]; cbn; congruence.
Qed.

(** The fresh instance, where the current configuration is the default one:
    [init(config)] makes the supplied properties over the defaults the
    configuration of the module.  It rejects with a
    string: with ['Key must be string'] when [apiKey] is not a string; when
    [userEmail] is a non-empty string that [validateEmail] refuses, with
    ['Email must be valid'] if [apiKey] is a string; when [callbackAfterTap] is
    not a function, with ['Callback must be function'] if the checks before
    it pass.  When all checks pass, the store holds the merged configuration
    as [JSON.stringify] writes it: without the callback and with the
    strings. *)
Theorem init_validates_config (env : Env) (cfg : obj) (w : World) :
  config w = default_config →
  config (snd (init env cfg w)) = spread default_config cfg
  ∧ (∀ k, spread default_config cfg !! k
          = match cfg !! k with Some v => Some v | None => default_config !! k end)
  ∧ (is_string (prop (spread default_config cfg) "apiKey") = false →
     fst (init env cfg w) = [Reject (VStr "Key must be string")])
  ∧ (∀ s, prop (spread default_config cfg) "userEmail" = VStr s →
          s ≠ "" → validateEmail s = false →
          ∃ reason, fst (init env cfg w) = [Reject (VStr reason)]
                    ∧ (is_string (prop (spread default_config cfg) "apiKey") = true →
                       reason = "Email must be valid"))
  ∧ (is_function (prop (spread default_config cfg) "callbackAfterTap") = false →
     ∃ reason, fst (init env cfg w) = [Reject (VStr reason)]
               ∧ (is_string (prop (spread default_config cfg) "apiKey") = true →
                  bad_email (prop (spread default_config cfg) "userEmail") = false →
                  reason = "Callback must be function"))
  ∧ (valid_config (spread default_config cfg) = true →
     storage_config (snd (init env cfg w))
     = Some (JSON_stringify (spread default_config cfg))
     ∧ JSON_stringify (spread default_config cfg) !! "callbackAfterTap" = None
     ∧ JSON_stringify (spread default_config cfg) !! "apiKey"
       = Some (prop (spread default_config cfg) "apiKey")
     ∧ JSON_stringify (spread default_config cfg) !! "userEmail"
       = Some (prop (spread default_config cfg) "userEmail")).
Proof.
  intros Hfresh.
  pose proof (init_frame env cfg w) as (Hc & Hs & _). rewrite Hfresh in Hc, Hs.
  pose proof (init_invalid env cfg w) as Hinv. rewrite Hfresh in Hinv.
  set (merged := spread default_config cfg) in *.
  split; [exact Hc|]. split; [intros k; apply spread_lookup|].
  split; [|split; [|split]].
  - intros Hk. destruct (is_string_false_invalid merged Hk) as (Hv & later & E).
    destruct (Hinv Hv) as (reason & later' & E' & ->). rewrite E in E'.
    injection E' as <- _. reflexivity.
  - intros s Hs' Hne Hbad.
    assert (Hb : bad_email (prop merged "userEmail") = true).
    { rewrite Hs'. unfold bad_email. rewrite Hbad.
      destruct s; [congruence | reflexivity]. }
    assert (Hv : valid_config merged = false).
    { unfold valid_config. rewrite Hb.
      destruct (is_string (prop merged "apiKey")); reflexivity. }
    destruct (Hinv Hv) as (reason & later & E & ->).
    exists reason. split; [reflexivity|]. intros Hk.
    unfold rejections in E. rewrite Hk, Hb in E. cbn in E. congruence.
  - intros Hf.
    assert (Hv : valid_config merged = false).
    { unfold valid_config. rewrite Hf. apply andb_false_r. }
    destruct (Hinv Hv) as (reason & later & E & ->).
    exists reason. split; [reflexivity|]. intros Hk Hb.
    unfold rejections in E. rewrite Hk, Hb, Hf in E. cbn in E. congruence.
  - intros Hv. split; [exact Hs|].
    unfold valid_config in Hv. rewrite !andb_true_iff, negb_true_iff in Hv.
    destruct Hv as [[Hk Hb] Hf].
    split; [apply stringify_drops_function, Hf|].
    split; [apply stringify_keeps_string, Hk|].
    apply stringify_keeps_string.
    destruct (prop merged "userEmail"); try discriminate. reflexivity.
Qed.

Lemma init_validates_config_witness :
  let env := sample_env "ios" (Some "fcm-1") None in
  let cfg : obj := {["apiKey" := VStr "key-1"]} in
  config first_start = default_config
  ∧ ∃ doc, storage_config (snd (init env cfg first_start)) = Some doc
           ∧ doc !! "apiKey" = Some (VStr "key-1")
           ∧ doc !! "callbackAfterTap" = None.
Proof.
  intros env cfg.
  destruct (init_validates_config env cfg first_start)
    as (_ & _ & _ & _ & _ & H); [reflexivity|].
  destruct H as (Hdoc & Hcb & Hkey & _); [reflexivity|].
  split; [reflexivity|]. eexists.
  split; [exact Hdoc|]. split; [exact Hkey | exact Hcb].
Defined.

(** C5, as the code has it.  [init(config)] makes the supplied
    properties over the current configuration the configuration of the
    module; the current configuration is the default one on a fresh
    instance and otherwise what earlier calls left.  On that merged
    configuration it rejects with a string: with ['Key must be string'] when
    [apiKey] is not a string; when [userEmail] is a non-empty string that
    [validateEmail] refuses, with ['Email must be valid'] if [apiKey] is a
    string; when [callbackAfterTap] is not a function, with
    ['Callback must be function'] if the checks before it pass.  When all
    checks pass, the store holds the merged configuration as
    [JSON.stringify] writes it: without the callback and with the
    strings. *)
Theorem init_validates_merged_config (env : Env) (cfg : obj) (w : World) :
  config (snd (init env cfg w)) = spread (config w) cfg
  ∧ (∀ k, spread (config w) cfg !! k
          = match cfg !! k with Some v => Some v | None => config w !! k end)
  ∧ (config w = default_config →
     config (snd (init env cfg w)) = spread default_config cfg)
  ∧ (is_string (prop (spread (config w) cfg) "apiKey") = false →
     fst (init env cfg w) = [Reject (VStr "Key must be string")])
  ∧ (∀ s, prop (spread (config w) cfg) "userEmail" = VStr s →
          s ≠ "" → validateEmail s = false →
          ∃ reason, fst (init env cfg w) = [Reject (VStr reason)]
                    ∧ (is_string (prop (spread (config w) cfg) "apiKey") = true →
                       reason = "Email must be valid"))
  ∧ (is_function (prop (spread (config w) cfg) "callbackAfterTap") = false →
     ∃ reason, fst (init env cfg w) = [Reject (VStr reason)]
               ∧ (is_string (prop (spread (config w) cfg) "apiKey") = true →
                  bad_email (prop (spread (config w) cfg) "userEmail") = false →
                  reason = "Callback must be function"))
  ∧ (valid_config (spread (config w) cfg) = true →
     storage_config (snd (init env cfg w))
     = Some (JSON_stringify (spread (config w) cfg))
     ∧ JSON_stringify (spread (config w) cfg) !! "callbackAfterTap" = None
     ∧ JSON_stringify (spread (config w) cfg) !! "apiKey"
       = Some (prop (spread (config w) cfg) "apiKey")
     ∧ JSON_stringify (spread (config w) cfg) !! "userEmail"
       = Some (prop (spread (config w) cfg) "userEmail")).
Proof.
  pose proof (init_frame env cfg w) as (Hc & Hs & _).
  pose proof (init_invalid env cfg w) as Hinv.
  set (merged := spread (config w) cfg) in *.
  split; [exact Hc|]. split; [intros k; apply spread_lookup|].
  split; [intros Hfresh; rewrite Hc; unfold merged; rewrite Hfresh; reflexivity|].
  split; [|split; [|split]].
  - intros Hk. destruct (is_string_false_invalid merged Hk) as (Hv & later & E).
    destruct (Hinv Hv) as (reason & later' & E' & ->). rewrite E in E'.
    injection E' as <- _. reflexivity.
  - intros s Hs' Hne Hbad.
    assert (Hb : bad_email (prop merged "userEmail") = true).
    { rewrite Hs'. unfold bad_email. rewrite Hbad.
      destruct s; [congruence | reflexivity]. }
    assert (Hv : valid_config merged = false).
    { unfold valid_config. rewrite Hb.
      destruct (is_string (prop merged "apiKey")); reflexivity. }
    destruct (Hinv Hv) as (reason & later & E & ->).
    exists reason. split; [reflexivity|]. intros Hk.
    unfold rejections in E. rewrite Hk, Hb in E. cbn in E. congruence.
  - intros Hf.
    assert (Hv : valid_config merged = false).
    { unfold valid_config. rewrite Hf. apply andb_false_r. }
    destruct (Hinv Hv) as (reason & later & E & ->).
    exists reason. split; [reflexivity|]. intros Hk Hb.
    unfold rejections in E. rewrite Hk, Hb, Hf in E. cbn in E. congruence.
  - intros Hv. split; [exact Hs|].
    unfold valid_config in Hv. rewrite !andb_true_iff, negb_true_iff in Hv.
    destruct Hv as [[Hk Hb] Hf].
    split; [apply stringify_drops_function, Hf|].
    split; [apply stringify_keeps_string, Hk|].
    apply stringify_keeps_string.
    unfold bad_email in Hb. apply orb_false_iff in Hb as [Hb _].
    apply negb_false_iff in Hb. exact Hb.
Qed.

Lemma init_validates_merged_config_witness :
  let env := sample_env "ios" (Some "fcm-1") None in
  let w := snd (setEmail (VStr "a@b.com") first_start) in
  ∃ doc, storage_config (snd (init env {["apiKey" := VStr "key-1"]} w)) = Some doc
         ∧ doc !! "apiKey" = Some (VStr "key-1")
         ∧ doc !! "userEmail" = Some (VStr "a@b.com")
         ∧ doc !! "callbackAfterTap" = None.
Proof.
  intros env w.
  destruct (init_validates_merged_config env {["apiKey" := VStr "key-1"]} w)
    as (_ & _ & _ & _ & _ & _ & H).
  destruct H as (Hdoc & Hcb & Hkey & Hmail); [vm_compute; reflexivity|].
  eexists. split; [exact Hdoc|].
  split; [rewrite Hkey; vm_compute; reflexivity|].
  split; [rewrite Hmail; vm_compute; reflexivity | exact Hcb].
Defined.

(** C5 as it is stated fails: the merge is over the current configuration,
    not over the defaults.  After an [init] with a key that is not a
    string, an [init] with no property at all rejects, although no
    property over the defaults passes every check; and the configuration it
    leaves is not the supplied properties over the defaults. *)
Lemma init_validates_config_counterexample :
  let env := sample_env "ios" (Some "fcm-1") None in
  let w := snd (init env {["apiKey" := VNum 5]} first_start) in
  valid_config (spread default_config ∅) = true
  ∧ fst (init env ∅ w) = [Reject (VStr "Key must be string")]
  ∧ config (snd (init env ∅ w)) ≠ spread default_config ∅
  ∧ storage_config (snd (init env ∅ w))
    ≠ Some (JSON_stringify (spread default_config ∅)).
Proof.
  intros env w. split; [reflexivity|]. split; [reflexivity|]. split.
  - intros E. apply (f_equal (λ o : obj, o !! "apiKey")) in E.
    vm_compute in E. discriminate E.
  - intros E.
    apply (f_equal (λ doc : option obj, doc ≫= λ o, o !! "apiKey")) in E.
    vm_compute in E. discriminate E.
Qed.

(** ** The platform and [createAndroidChannel] *)





(** ** The cold-start check *)

(** The request of a ['tap'] log with the flag of the cold start. *)
Lemma sendLog_tap_initial (env : Env) (n : Notification) (w : World)
    (d_ d localConfig : obj) :
  _data n = Some d_ → data n = Some d → storage_config w = Some localConfig →
  ∃ r, requests (sendLog env "tap" n {["initial" := VBool true]} w)
       = requests w ++ [r]
       ∧ url r = log_url ∧ method r = "POST"
       ∧ payload r !! "event" = Some (VStr "tap")
       ∧ payload r !! "initial" = Some (VBool true)
       ∧ payload r !! "tappedAt" = Some (VNum (Date_now env / 1000)).
Proof.
  intros H_ Hd Hc. unfold sendLog. rewrite H_, Hd, Hc.
  change (String.eqb "tap" "display") with false.
  change (String.eqb "tap" "tap") with true. cbv iota.
  eexists. split.
  { pose proof (sendRequest_logged_fields env log_url ∅) as H.
    cbv zeta in H. rewrite (proj1 (H _ _ _)). rewrite sendRequest_requests.
    reflexivity. }
  cbn [url method payload]. split; [reflexivity|]. split; [reflexivity|].
  rewrite !JSON_stringify_lookup. unfold spread.
  split; [|split].
  - rewrite lookup_insert_ne by discriminate.
    rewrite lookup_union_r by (apply lookup_singleton_ne; discriminate).
    literal_lookup. reflexivity.
  - rewrite lookup_insert_ne by discriminate.
    erewrite lookup_union_Some_l by apply lookup_singleton_eq. reflexivity.
  - rewrite lookup_insert_eq. reflexivity.
Qed.

(** The cold-start check on a world whose configuration has a callback
    that returns and whose store has a configuration: one removal, one call
    of the callback with the data of the notification, one ['tap'] log with
    the flag. *)
Lemma checkIfOpenedByNotification_tap (env : Env) (w : World)
    (notificationOpen : NotificationOpen) (d d_ localConfig : obj) (f : nat) :
  getInitialNotification env = Resolve (Some notificationOpen) →
  removeDeliveredNotification env (_notificationId (notification notificationOpen))
  = Resolve tt →
  data (notification notificationOpen) = Some d →
  _data (notification notificationOpen) = Some d_ →
  storage_config w = Some localConfig →
  prop (config w) "callbackAfterTap" = VFun f →
  callbackAfterTap_returns env f (Some d) = true →
  fst (checkIfOpenedByNotification env w) = [Resolve VUndefined]
  ∧ taps (snd (checkIfOpenedByNotification env w)) = taps w ++ [(f, Some d)]
  ∧ removed (snd (checkIfOpenedByNotification env w))
    = removed w ++ [_notificationId (notification notificationOpen)]
  ∧ ∃ r, requests (snd (checkIfOpenedByNotification env w)) = requests w ++ [r]
         ∧ url r = log_url ∧ method r = "POST"
         ∧ payload r !! "event" = Some (VStr "tap")
         ∧ payload r !! "initial" = Some (VBool true).
Proof.
  intros Hinit Hrem Hd H_ Hc Hf Hret.
  unfold checkIfOpenedByNotification, handle_tap, call_callbackAfterTap.
  rewrite Hinit, Hrem. cbn [config set_removed log_text console_log set_console].
  rewrite Hf, Hd, Hret. cbn [fst snd].
  set (w1 := set_taps _ _).
  pose proof (sendLog_frame env "tap" (notification notificationOpen)
                {["initial" := VBool true]} w1) as (_ & _ & _ & Ht & _ & _ & Hr).
  destruct (sendLog_tap_initial env (notification notificationOpen) w1 d_ d
              localConfig H_ Hd Hc) as (r & Hreq & Hu & Hm & He & Hi & _).
  split; [reflexivity|]. rewrite Ht, Hr. split; [reflexivity|].
  split; [reflexivity|]. exists r. rewrite Hreq. auto.
Qed.

(** The same check with a callback that throws: the notification is
    removed and the callback called, and that is all; the promise stays
    pending. *)
Lemma checkIfOpenedByNotification_throw (env : Env) (w : World)
    (notificationOpen : NotificationOpen) (d : obj) (f : nat) :
  getInitialNotification env = Resolve (Some notificationOpen) →
  removeDeliveredNotification env (_notificationId (notification notificationOpen))
  = Resolve tt →
  data (notification notificationOpen) = Some d →
  prop (config w) "callbackAfterTap" = VFun f →
  callbackAfterTap_returns env f (Some d) = false →
  fst (checkIfOpenedByNotification env w) = []
  ∧ taps (snd (checkIfOpenedByNotification env w)) = taps w ++ [(f, Some d)]
  ∧ removed (snd (checkIfOpenedByNotification env w))
    = removed w ++ [_notificationId (notification notificationOpen)]
  ∧ requests (snd (checkIfOpenedByNotification env w)) = requests w
  ∧ listeners (snd (checkIfOpenedByNotification env w)) = listeners w.
Proof.
  intros Hinit Hrem Hd Hf Hret.
  unfold checkIfOpenedByNotification, handle_tap, call_callbackAfterTap.
  rewrite Hinit, Hrem. cbn [config set_removed log_text console_log set_console].
  rewrite Hf, Hd, Hret. cbn. auto.
Qed.

Lemma valid_config_callback (c : obj) :
  valid_config c = true → ∃ f, prop c "callbackAfterTap" = VFun f.
Proof.
  unfold valid_config. rewrite !andb_true_iff. intros [_ Hf].
  destruct (prop c "callbackAfterTap"); try discriminate. eauto.
Qed.

(** C3, as the code has it.  When the configuration passes the checks of
    [checkParams], the process was started by a tap on a notification that
    carries its data, and the push library removes that notification, one
    [init] runs the cold-start check once: the callback of the merged
    configuration is called exactly once, with the data of the
    notification.  If that call returns, exactly one request is sent, a
    ['tap'] log whose body carries [initial: true].  If it throws, no
    request is sent, no listener is attached and the promise of [init]
    stays pending. *)
Theorem init_cold_start_tap (env : Env) (cfg : obj) (w : World)
    (notificationOpen : NotificationOpen) (d d_ : obj) :
  valid_config (spread (config w) cfg) = true →
  getInitialNotification env = Resolve (Some notificationOpen) →
  removeDeliveredNotification env (_notificationId (notification notificationOpen))
  = Resolve tt →
  data (notification notificationOpen) = Some d →
  _data (notification notificationOpen) = Some d_ →
  ∃ f,
    prop (spread (config w) cfg) "callbackAfterTap" = VFun f
    ∧ taps (snd (init env cfg w)) = taps w ++ [(f, Some d)]
    ∧ removed (snd (init env cfg w))
      = removed w ++ [_notificationId (notification notificationOpen)]
    ∧ (callbackAfterTap_returns env f (Some d) = true →
       ∃ r, requests (snd (init env cfg w)) = requests w ++ [r]
            ∧ url r = log_url ∧ method r = "POST"
            ∧ payload r !! "event" = Some (VStr "tap")
            ∧ payload r !! "initial" = Some (VBool true))
    ∧ (callbackAfterTap_returns env f (Some d) = false →
       requests (snd (init env cfg w)) = requests w
       ∧ fst (init env cfg w) = []
       ∧ listeners (snd (init env cfg w)) = listeners w).
Proof.
  intros Hv Hinit Hrem Hd H_.
  destruct (valid_config_callback _ Hv) as [f Hf]. exists f.
  split; [exact Hf|].
  rewrite (init_valid env cfg w Hv).
  destruct (callbackAfterTap_returns env f (Some d)) eqn:Hret.
  - destruct (checkIfOpenedByNotification_tap env (snd (checkParams cfg w))
                notificationOpen d d_ (JSON_stringify (spread (config w) cfg)) f
                Hinit Hrem Hd H_ eq_refl Hf Hret)
      as (Hp & Ht & Hr & r & Hq & Hrest).
    destruct (checkIfOpenedByNotification env (snd (checkParams cfg w)))
      as [p2 w2].
    cbn [fst snd] in Hp, Ht, Hr, Hq. subst p2. cbn [state head].
    pose proof (createAndroidChannel_frame env true w2)
      as (_ & _ & _ & Gt & _ & _ & Gr & Gq).
    destruct (createAndroidChannel env true w2) as [p3 w3].
    cbn [snd] in Gt, Gr, Gq.
    assert (Hw3 : taps w3 = taps w ++ [(f, Some d)]
                  ∧ removed w3
                    = removed w ++ [_notificationId (notification notificationOpen)]
                  ∧ requests w3 = requests w ++ [r]).
    { rewrite Gt, Gr, Gq, Ht, Hr, Hq. auto. }
    destruct Hw3 as (T & R & Q).
    destruct (state p3) as [[v|e]|];
      cbn [snd createListeners set_listeners taps removed requests];
      (split; [exact T|]; split; [exact R|]; split; [|discriminate];
       intros _; exists r; auto).
  - destruct (checkIfOpenedByNotification_throw env (snd (checkParams cfg w))
                notificationOpen d f Hinit Hrem Hd Hf Hret)
      as (Hp & Ht & Hr & Hq & Hl).
    destruct (checkIfOpenedByNotification env (snd (checkParams cfg w)))
      as [p2 w2].
    cbn [fst snd] in Hp, Ht, Hr, Hq, Hl. subst p2. cbn [state head fst snd].
    split; [exact Ht|]. split; [exact Hr|]. split; [discriminate|].
    intros _. auto.
Qed.

Lemma init_cold_start_tap_witness :
  let env := sample_env "android" (Some "fcm-1") (Some sample_open) in
  let cfg : obj := {["apiKey" := VStr "key-1"]} in
  taps (snd (init env cfg first_start)) = [(0%nat, Some sample_data)]
  ∧ length (requests (snd (init env cfg first_start))) = 1%nat.
Proof.
  intros env cfg.
  destruct (init_cold_start_tap env cfg first_start sample_open sample_data
              sample_data)
    as (f & Hf & Ht & _ & Hq & _);
    [reflexivity | reflexivity | reflexivity | reflexivity | reflexivity |].
  assert (E : f = 0%nat) by (vm_compute in Hf; congruence).
  destruct Hq as (r & Hq & _); [reflexivity|].
  rewrite Ht, Hq, E. split; reflexivity.
Defined.

(** C3 as it is stated fails, in three ways.  With a configuration that
    fails a check the cold-start check does not run: the callback is not
    called and no log is sent.  The check runs at every [init], so that a
    second [init] in the same process calls the callback and sends the log
    a second time.  And what the callback receives is the data of the
    notification; the flag goes to the log only. *)
Lemma init_cold_start_counterexample :
  let env := sample_env "android" (Some "fcm-1") (Some sample_open) in
  let cfg : obj := {["apiKey" := VStr "key-1"]} in
  getInitialNotification env = Resolve (Some sample_open)
  ∧ taps (snd (init env {["apiKey" := VNum 5]} first_start)) = []
  ∧ requests (snd (init env {["apiKey" := VNum 5]} first_start)) = []
  ∧ taps (snd (init env cfg (snd (init env cfg first_start))))
    = [(0%nat, Some sample_data); (0%nat, Some sample_data)]
  ∧ map url (requests (snd (init env cfg (snd (init env cfg first_start)))))
    = [log_url; log_url]
  ∧ taps (snd (init env cfg first_start)) = [(0%nat, Some sample_data)]
  ∧ sample_data ≠ {["initial" := VBool true]}.
Proof.
  intros env cfg. split; [reflexivity|]. split; [reflexivity|].
  split; [reflexivity|]. split; [reflexivity|]. split; [reflexivity|].
  split; [reflexivity|].
  intros E. apply (f_equal (λ o : obj, o !! "initial")) in E.
  vm_compute in E. discriminate E.
Qed.

(** A callback that throws: the cold start of the sample device leaves
    [init] pending, with the callback called and nothing sent. *)
Lemma init_cold_start_throwing_callback :
  let env := throwing_callback_env "android" in
  let cfg : obj := {["apiKey" := VStr "key-1"]} in
  fst (init env cfg first_start) = []
  ∧ taps (snd (init env cfg first_start)) = [(0%nat, Some sample_data)]
  ∧ requests (snd (init env cfg first_start)) = []
  ∧ listeners (snd (init env cfg first_start)) = [].
Proof. intros env cfg. repeat split. Qed.

(** ** Rendering *)

(** What [displayLocalNotification] asks the push library to display: one
    notification when the channel promise resolves, none otherwise. *)
Lemma displayLocalNotification_shown (env : Env) (n : Notification)
    (dataOnly : bool) (w : World) (d : obj) :
  data n = Some d →
  shown (displayLocalNotification env n dataOnly w)
  = shown w
    ++ match state (fst (createAndroidChannel env false w)) with
       | Some (Resolve _) =>
           [{| show_in_foreground := true;
               notificationId := if dataOnly then _messageId n else _notificationId n;
               local_title := if dataOnly then prop d "title" else title n;
               local_body := if dataOnly then prop d "body" else body n;
               local_data := _data n;
               sound := prop d "sound"; bigPicture := prop d "image";
               channelId := "push"; smallIcon := "ic_notification";
               color := "#00FF00"; priority := "Max"; vibrate := 1000 |}]
       | _ => []
       end.
Proof.
  intros Hd. unfold displayLocalNotification.
  pose proof (createAndroidChannel_frame env false w) as (_ & _ & _ & _ & Hs & _).
  destruct (createAndroidChannel env false w) as [p w1]. cbn [fst snd] in *.
  rewrite Hd.
  destruct (state p) as [[v|e]|]; try (rewrite Hs, app_nil_r; reflexivity).
  destruct (displayNotification env _).
  - cbn [log_text console_log set_console shown].
    destruct (String.eqb (OS env) "android").
    + match goal with |- context [sendLog env "display" n ∅ ?w2] =>
        pose proof (sendLog_frame env "display" n ∅ w2) as (_ & _ & _ & _ & H & _)
      end.
      rewrite H. cbn. rewrite Hs. reflexivity.
    + cbn. rewrite Hs. reflexivity.
  - cbn. rewrite Hs. reflexivity.
Qed.

(** C8. For a message with a [data] field the background handler resolves
    and calls [displayLocalNotification] with [dataOnly] at [true]: whatever
    it gets displayed has the message id for an id and its title, body and
    data from the data of the message; that is one notification when the
    channel promise resolves and none otherwise. *)
Theorem backgroundMessaging_data_only (env : Env) (message : Notification)
    (w : World) (d : obj) :
  data message = Some d →
  fst (backgroundMessaging env message w) = [Resolve VUndefined]
  ∧ snd (backgroundMessaging env message w)
    = displayLocalNotification env (set__data (Some d) message) true
        (console_log [LNotification message] w)
  ∧ ∃ new,
      shown (snd (backgroundMessaging env message w)) = shown w ++ new
      ∧ (∀ ln, ln ∈ new →
               notificationId ln = _messageId message
               ∧ local_title ln = prop d "title"
               ∧ local_body ln = prop d "body"
               ∧ local_data ln = Some d)
      ∧ (fst (createAndroidChannel env false w) = [Resolve VUndefined] →
         length new = 1%nat)
      ∧ (fst (createAndroidChannel env false w) ≠ [Resolve VUndefined] →
         new = []).
Proof.
  intros Hd. unfold backgroundMessaging. rewrite Hd. cbn [fst snd].
  split; [reflexivity|]. split; [reflexivity|].
  rewrite (displayLocalNotification_shown env _ true _ d) by exact Hd.
  assert (Hsame : fst (createAndroidChannel env false (console_log [LNotification message] w))
                  = fst (createAndroidChannel env false w)).
  { unfold createAndroidChannel. split_matches; reflexivity. }
  rewrite Hsame.
  assert (Hcases : fst (createAndroidChannel env false w) = [Resolve VUndefined]
                   ∨ fst (createAndroidChannel env false w) = []
                   ∨ ∃ e, fst (createAndroidChannel env false w) = [Reject e]).
  { unfold createAndroidChannel. split_matches; cbn; eauto. }
  eexists. split; [reflexivity|].
  destruct Hcases as [-> | [-> | [e ->]]]; cbn [state head].
  - split; [|split; [reflexivity | congruence]].
    intros ln Hin. apply list_elem_of_singleton in Hin. subst ln. cbn. auto.
  - split; [|split; [discriminate | reflexivity]].
    intros ln Hin. inversion Hin.
  - split; [|split; [discriminate | reflexivity]].
    intros ln Hin. inversion Hin.
Qed.

Lemma backgroundMessaging_data_only_witness :
  let env := sample_env "android" (Some "fcm-1") None in
  ∃ ln, shown (snd (backgroundMessaging env sample_notification first_start)) = [ln]
        ∧ local_title ln = VStr "Sale" ∧ local_body ln = VStr "Today only".
Proof.
  intros env.
  destruct (backgroundMessaging_data_only env sample_notification first_start
              sample_data eq_refl)
    as (_ & _ & new & Hs & Hall & Hone & _).
  specialize (Hone eq_refl).
  destruct new as [|ln [|]]; try discriminate Hone.
  exists ln. split; [exact Hs|].
  destruct (Hall ln) as (_ & Ht & Hb & _); [left|].
  rewrite Ht, Hb. split; reflexivity.
Defined.

(** The other branch, for contrast: a notification received in the
    foreground is rendered with its own title and body. *)
Lemma onNotification_full_payload (env : Env) (n : Notification) (w : World) (d : obj) :
  data n = Some d →
  fst (createAndroidChannel env false w) = [Resolve VUndefined] →
  ∃ ln, shown (onNotification env n w) = shown w ++ [ln]
        ∧ notificationId ln = _notificationId n
        ∧ local_title ln = title n ∧ local_body ln = body n.
Proof.
  intros Hd Hch. unfold onNotification.
  rewrite (displayLocalNotification_shown env n false _ d Hd).
  assert (Hsame : ∀ w0, fst (createAndroidChannel env false w0)
                        = fst (createAndroidChannel env false w)).
  { intros w0. unfold createAndroidChannel. split_matches; reflexivity. }
  rewrite Hsame, Hch. cbn [state head]. eexists. split; [reflexivity|].
  cbn. auto.
Qed.

(** * Further properties of the module *)

(** ** [getToken] on an empty cache *)

(** The body of the registration request. *)
Lemma register_body_lookup (info : obj) (apiKey email : value) (t k : string) :
  JSON_stringify (spread (list_to_map [("apiKey", apiKey); ("email", email);
                                       ("fcmToken", VStr t)]) info) !! k
  = match info !! k with
    | Some v => in_json v
    | None =>
        if decide (k = "apiKey") then in_json apiKey
        else if decide (k = "email") then in_json email
        else if decide (k = "fcmToken") then Some (VStr t)
        else None
    end.
Proof.
  rewrite JSON_stringify_lookup, spread_lookup.
  destruct (info !! k) as [v|]; [reflexivity|].
  rewrite !list_to_map_cons, list_to_map_nil.
  repeat case_decide; subst; literal_lookup; try reflexivity.
  rewrite !lookup_insert_ne by congruence. reflexivity.
Qed.

(** The miss of the read-through cache, as one equation. *)
Lemma getToken_fresh (env : Env) (w : World) (t : string) (info : obj) :
  truthy (getItem "fcmToken" w) = false →
  messaging_getToken env = Resolve (Some t) → t ≠ "" →
  getDeviceInfo env = Resolve info →
  getToken env w
  = ([Resolve (VStr t)],
     log_text "Getting new token..."
       (sendRequest_logged env register_url ∅
          (spread (list_to_map [("apiKey", prop (config w) "apiKey");
                                ("email", prop (config w) "userEmail");
                                ("fcmToken", VStr t)]) info)
          "POST" (setItem "fcmToken" t (setItem "isSubscribed" "true" w)))).
Proof.
  intros Hempty Hlib Ht Hinfo. unfold getToken.
  rewrite getItem_setItem_ne by discriminate.
  apply truthy_Some in Ht. rewrite Hempty, Hlib, Ht, Hinfo. reflexivity.
Qed.

(** X1. On an empty cache, with a token from the push library and the
    device information at hand, [getToken] resolves with the new token,
    stores it, and sends exactly one request: a [POST] to the registration
    endpoint whose body has the token, the key and the address of the
    configuration, and every property of the device information. *)
Theorem getToken_registers_new_token (env : Env) (w : World) (t : string)
    (info : obj) :
  truthy (getItem "fcmToken" w) = false →
  messaging_getToken env = Resolve (Some t) → t ≠ "" →
  getDeviceInfo env = Resolve info →
  fst (getToken env w) = [Resolve (VStr t)]
  ∧ getItem "fcmToken" (snd (getToken env w)) = Some t
  ∧ ∃ r, requests (snd (getToken env w)) = requests w ++ [r]
         ∧ url r = register_url ∧ method r = "POST"
         ∧ payload r !! "fcmToken" = Some (VStr t)
         ∧ payload r !! "apiKey" = in_json (prop (config w) "apiKey")
         ∧ payload r !! "email" = in_json (prop (config w) "userEmail")
         ∧ (∀ k v, info !! k = Some v → payload r !! k = in_json v).
Proof.
  intros Hempty Hlib Ht Hinfo.
  assert (Hno1 : info !! "fcmToken" = None)
    by (apply (getDeviceInfo_lookup env _ _ Hinfo); literal_notin).
  assert (Hno2 : info !! "apiKey" = None)
    by (apply (getDeviceInfo_lookup env _ _ Hinfo); literal_notin).
  assert (Hno3 : info !! "email" = None)
    by (apply (getDeviceInfo_lookup env _ _ Hinfo); literal_notin).
  split; [rewrite (getToken_fresh env w t info) by assumption; reflexivity|].
  split.
  { unfold getItem. rewrite getToken_storage, Hempty, Hlib.
    apply truthy_Some in Ht. rewrite Ht. apply lookup_insert_eq. }
  rewrite (getToken_fresh env w t info) by assumption.
  cbn [snd log_text console_log set_console requests].
  eexists. split.
  { rewrite (proj1 (sendRequest_logged_fields env register_url ∅ _ "POST" _)).
    rewrite sendRequest_requests. reflexivity. }
  cbn [url method payload]. split; [reflexivity|]. split; [reflexivity|].
  rewrite !register_body_lookup, Hno1, Hno2, Hno3.
  split; [reflexivity|]. split; [reflexivity|]. split; [reflexivity|].
  intros k v Hk. rewrite register_body_lookup, Hk. reflexivity.
Qed.

Lemma getToken_registers_new_token_witness :
  let env := sample_env "android" (Some "fcm-1") None in
  fst (getToken env first_start) = [Resolve (VStr "fcm-1")]
  ∧ map url (requests (snd (getToken env first_start))) = [register_url].
Proof.
  intros env.
  assert (Hinfo : ∃ info, getDeviceInfo env = Resolve info) by (eexists; reflexivity).
  destruct Hinfo as [info Hinfo].
  destruct (getToken_registers_new_token env first_start "fcm-1" info)
    as (Hp & _ & r & Hr & Hu & _);
    [reflexivity | reflexivity | discriminate | exact Hinfo |].
  split; [exact Hp|]. rewrite Hr. cbn. rewrite Hu. reflexivity.
Defined.

(** X2. When the device information cannot be read, [getToken] has already
    stored the new token: its promise never settles and nothing is sent,
    and every later [getToken] resolves with that token from the cache
    without sending anything either, so that the backend never learns of
    it. *)
Theorem getToken_unregistered_token (env1 env2 : Env) (w : World) (t : string)
    (e : value) :
  truthy (getItem "fcmToken" w) = false →
  messaging_getToken env1 = Resolve (Some t) → t ≠ "" →
  getDeviceInfo env1 = Reject e →
  fst (getToken env1 w) = []
  ∧ getItem "fcmToken" (snd (getToken env1 w)) = Some t
  ∧ requests (snd (getToken env1 w)) = requests w
  ∧ fst (getToken env2 (snd (getToken env1 w))) = [Resolve (VStr t)]
  ∧ requests (snd (getToken env2 (snd (getToken env1 w)))) = requests w.
Proof.
  intros Hempty Hlib Ht Hinfo.
  assert (E : getToken env1 w
              = ([], setItem "fcmToken" t (setItem "isSubscribed" "true" w))).
  { unfold getToken. rewrite getItem_setItem_ne by discriminate.
    pose proof Ht as Ht'. apply truthy_Some in Ht'.
    rewrite Hempty, Hlib, Ht', Hinfo. reflexivity. }
  rewrite E. cbn [fst snd].
  assert (Hc : getItem "fcmToken"
                 (setItem "fcmToken" t (setItem "isSubscribed" "true" w)) = Some t)
    by apply getItem_setItem_eq.
  rewrite (getToken_cached env2 _ t Hc Ht).
  split; [reflexivity|]. split; [exact Hc|]. repeat split.
Qed.

Lemma getToken_unregistered_token_witness :
  let env1 := no_device_info_env "android" (Some "fcm-1") in
  let env2 := sample_env "android" (Some "fcm-2") None in
  fst (getToken env1 first_start) = []
  ∧ fst (getToken env2 (snd (getToken env1 first_start))) = [Resolve (VStr "fcm-1")]
  ∧ requests (snd (getToken env2 (snd (getToken env1 first_start)))) = [].
Proof.
  intros env1 env2.
  destruct (getToken_unregistered_token env1 env2 first_start "fcm-1"
              (VStr "no brand"))
    as (H1 & _ & _ & H2 & H3);
    [reflexivity | reflexivity | discriminate | reflexivity |].
  split; [exact H1|]. split; [exact H2 | exact H3].
Defined.


(** ** [unsubscribe] with a token in the cache *)

Lemma delete_body_lookup (apiKey : value) (t : string) :
  JSON_stringify (list_to_map [("apiKey", apiKey); ("fcmToken", VStr t)])
    !! "fcmToken" = Some (VStr t)
  ∧ JSON_stringify (list_to_map [("apiKey", apiKey); ("fcmToken", VStr t)])
      !! "apiKey" = in_json apiKey.
Proof.
  rewrite !JSON_stringify_lookup. split; literal_lookup; reflexivity.
Qed.

(** X4. With a token in the cache and the push library deleting its own,
    [unsubscribe] sends exactly one request, a [DELETE] to the deletion
    endpoint with the cached token and the key of the configuration; the
    store then holds no token and the flag is ['false'], whatever the
    backend answers; the promise resolves when the request succeeds and
    rejects with the error of the request when it fails. *)
Theorem unsubscribe_with_token (env : Env) (w : World) (t : string) :
  getItem "fcmToken" w = Some t → t ≠ "" →
  messaging_deleteToken env = Resolve tt →
  ∃ r, requests (snd (unsubscribe env w)) = requests w ++ [r]
       ∧ url r = delete_url ∧ method r = "DELETE"
       ∧ payload r !! "fcmToken" = Some (VStr t)
       ∧ payload r !! "apiKey" = in_json (prop (config w) "apiKey")
       ∧ getItem "fcmToken" (snd (unsubscribe env w)) = None
       ∧ checkIfSubscribed (snd (unsubscribe env w)) = false
       ∧ (∀ res, fetch env r = Resolve res →
                 fst (unsubscribe env w) = [Resolve VUndefined])
       ∧ (∀ e, fetch env r = Reject e → fst (unsubscribe env w) = [Reject e]).
Proof.
  intros Hc Ht Hdel.
  assert (Hstore : storage (snd (unsubscribe env w))
                   = <["isSubscribed" := "false"]> (delete "fcmToken" (storage w)))
    by (apply unsubscribe_storage, Hdel).
  apply truthy_Some in Ht.
  eexists. split; [|split; [|split; [|split; [|split; [|split; [|split; [|split]]]]]]].
  - unfold unsubscribe. rewrite Hdel, Hc, Ht. unfold sendRequest.
    destruct (fetch env _); reflexivity.
  - reflexivity.
  - reflexivity.
  - cbn [payload]. apply delete_body_lookup.
  - cbn [payload]. apply delete_body_lookup.
  - unfold getItem. rewrite Hstore.
    rewrite lookup_insert_ne by discriminate. apply lookup_delete_eq.
  - unfold checkIfSubscribed, getItem. rewrite Hstore, lookup_insert_eq.
    apply bool_decide_eq_false. discriminate.
  - intros res Hres. unfold unsubscribe. rewrite Hdel, Hc, Ht.
    unfold sendRequest. world_simpl. rewrite Hres. reflexivity.
  - intros e He. unfold unsubscribe. rewrite Hdel, Hc, Ht.
    unfold sendRequest. world_simpl. rewrite He. reflexivity.
Qed.

Lemma unsubscribe_with_token_witness :
  let env := sample_env "ios" None None in
  fst (unsubscribe env subscribed_start) = [Resolve VUndefined]
  ∧ map url (requests (snd (unsubscribe env subscribed_start))) = [delete_url]
  ∧ checkIfSubscribed (snd (unsubscribe env subscribed_start)) = false.
Proof.
  intros env.
  destruct (unsubscribe_with_token env subscribed_start "old-token")
    as (r & Hr & Hu & _ & _ & _ & _ & Hs & Hok & _);
    [reflexivity | discriminate | reflexivity |].
  split; [apply (Hok (VBool true)); reflexivity|].
  split; [rewrite Hr; cbn; rewrite Hu; reflexivity | exact Hs].
Defined.

(** X5. When the push library fails to delete its token, [unsubscribe]
    rejects with the error of the library and touches neither the store
    nor the backend: the cached token and the flag stay as they were. *)
Theorem unsubscribe_library_failure (env : Env) (w : World) (e : value) :
  messaging_deleteToken env = Reject e →
  fst (unsubscribe env w) = [Reject e]
  ∧ storage (snd (unsubscribe env w)) = storage w
  ∧ requests (snd (unsubscribe env w)) = requests w
  ∧ checkIfSubscribed (snd (unsubscribe env w)) = checkIfSubscribed w.
Proof.
  intros H. unfold unsubscribe. rewrite H. repeat split.
Qed.

Lemma unsubscribe_library_failure_witness :
  let env := {| OS := "ios"; messaging_getToken := Resolve None;
                messaging_deleteToken := Reject (VStr "offline");
                getInitialNotification := Resolve None;
                removeDeliveredNotification := λ _, Resolve tt;
                createChannelGroup := Resolve tt; createChannel := Resolve tt;
                displayNotification := λ _, Resolve tt;
                getUniqueId := Resolve VNull; getBrand := Resolve VNull;
                getModel := Resolve VNull; getDeviceId := Resolve VNull;
                getSystemVersion := Resolve VNull;
                fetch := λ _, Resolve VNull; Date_now := 0;
                callbackAfterTap_returns := λ _ _, true |} in
  fst (unsubscribe env subscribed_start) = [Reject (VStr "offline")]
  ∧ checkIfSubscribed (snd (unsubscribe env subscribed_start)) = true.
Proof.
  intros env.
  destruct (unsubscribe_library_failure env subscribed_start (VStr "offline"))
    as (Hp & _ & _ & Hs); [reflexivity|].
  split; [exact Hp|]. rewrite Hs. reflexivity.
Defined.

(** ** Subscribing, unsubscribing and refreshing, one after the other *)

Lemma getToken_fresh_trace (env : Env) (w : World) (t : string) (info : obj) :
  truthy (getItem "fcmToken" w) = false →
  messaging_getToken env = Resolve (Some t) → t ≠ "" →
  getDeviceInfo env = Resolve info →
  storage (snd (getToken env w))
  = <["fcmToken" := t]> (<["isSubscribed" := "true"]> (storage w))
  ∧ ∃ r, requests (snd (getToken env w)) = requests w ++ [r]
         ∧ url r = register_url
         ∧ payload r !! "fcmToken" = Some (VStr t).
Proof.
  intros Hempty Hlib Ht Hinfo. split.
  - rewrite getToken_storage, Hempty, Hlib.
    apply truthy_Some in Ht. rewrite Ht. reflexivity.
  - rewrite (getToken_fresh env w t info) by assumption.
    cbn [snd log_text console_log set_console requests].
    eexists. split.
    { rewrite (proj1 (sendRequest_logged_fields env register_url ∅ _ "POST" _)).
      rewrite sendRequest_requests. reflexivity. }
    cbn [url payload]. split; [reflexivity|].
    rewrite register_body_lookup.
    rewrite (getDeviceInfo_lookup env _ _ Hinfo) by literal_notin. reflexivity.
Qed.

Lemma unsubscribe_cached_trace (env : Env) (w : World) (t : string) :
  getItem "fcmToken" w = Some t → t ≠ "" →
  messaging_deleteToken env = Resolve tt →
  ∃ r, requests (snd (unsubscribe env w)) = requests w ++ [r]
       ∧ url r = delete_url
       ∧ payload r !! "fcmToken" = Some (VStr t).
Proof.
  intros Hc Ht Hdel. apply truthy_Some in Ht.
  eexists. split; [|split].
  - unfold unsubscribe. rewrite Hdel, Hc, Ht. unfold sendRequest.
    destruct (fetch env _); reflexivity.
  - reflexivity.
  - cbn [payload]. apply delete_body_lookup.
Qed.

(** X6. Subscribe, unsubscribe, subscribe again.  After a first [getToken]
    on an empty cache and an [unsubscribe], the cache is empty and the flag
    is down, so that the next [getToken] asks the push library anew and
    registers what it gets: the backend sees a registration of the first
    token, its deletion, and a registration of the second. *)
Theorem getToken_unsubscribe_round_trip (env1 env2 env3 : Env) (w : World)
    (t1 t3 : string) (info1 info3 : obj) :
  truthy (getItem "fcmToken" w) = false →
  messaging_getToken env1 = Resolve (Some t1) → t1 ≠ "" →
  getDeviceInfo env1 = Resolve info1 →
  messaging_deleteToken env2 = Resolve tt →
  messaging_getToken env3 = Resolve (Some t3) → t3 ≠ "" →
  getDeviceInfo env3 = Resolve info3 →
  getItem "fcmToken" (snd (unsubscribe env2 (snd (getToken env1 w)))) = None
  ∧ checkIfSubscribed (snd (unsubscribe env2 (snd (getToken env1 w)))) = false
  ∧ fst (getToken env3 (snd (unsubscribe env2 (snd (getToken env1 w)))))
    = [Resolve (VStr t3)]
  ∧ ∃ r1 r2 r3,
      requests (snd (getToken env3 (snd (unsubscribe env2 (snd (getToken env1 w))))))
      = requests w ++ [r1; r2; r3]
      ∧ url r1 = register_url ∧ payload r1 !! "fcmToken" = Some (VStr t1)
      ∧ url r2 = delete_url ∧ payload r2 !! "fcmToken" = Some (VStr t1)
      ∧ url r3 = register_url ∧ payload r3 !! "fcmToken" = Some (VStr t3).
Proof.
  intros Hempty Hlib1 Ht1 Hinfo1 Hdel Hlib3 Ht3 Hinfo3.
  destruct (getToken_fresh_trace env1 w t1 info1 Hempty Hlib1 Ht1 Hinfo1)
    as (Hs1 & r1 & Hr1 & Hu1 & Hp1).
  set (w1 := snd (getToken env1 w)) in *.
  assert (Hc1 : getItem "fcmToken" w1 = Some t1).
  { unfold getItem. rewrite Hs1. apply lookup_insert_eq. }
  destruct (unsubscribe_cached_trace env2 w1 t1 Hc1 Ht1 Hdel)
    as (r2 & Hr2 & Hu2 & Hp2).
  pose proof (unsubscribe_storage env2 w1 Hdel) as Hs2.
  set (w2 := snd (unsubscribe env2 w1)) in *.
  assert (Hc2 : getItem "fcmToken" w2 = None).
  { unfold getItem. rewrite Hs2. rewrite lookup_insert_ne by discriminate.
    apply lookup_delete_eq. }
  assert (Hempty2 : truthy (getItem "fcmToken" w2) = false) by (rewrite Hc2; reflexivity).
  destruct (getToken_fresh_trace env3 w2 t3 info3 Hempty2 Hlib3 Ht3 Hinfo3)
    as (_ & r3 & Hr3 & Hu3 & Hp3).
  split; [exact Hc2|]. split.
  { unfold checkIfSubscribed, getItem. rewrite Hs2, lookup_insert_eq.
    apply bool_decide_eq_false. discriminate. }
  split.
  { rewrite (getToken_fresh env3 w2 t3 info3) by assumption. reflexivity. }
  exists r1, r2, r3. rewrite Hr3, Hr2, Hr1, <- !app_assoc. cbn [app]. auto 10.
Qed.

Lemma getToken_unsubscribe_round_trip_witness :
  let env1 := sample_env "android" (Some "fcm-1") None in
  let env3 := sample_env "android" (Some "fcm-2") None in
  fst (getToken env3 (snd (unsubscribe env1 (snd (getToken env1 first_start)))))
  = [Resolve (VStr "fcm-2")]
  ∧ map url (requests (snd (getToken env3 (snd (unsubscribe env1
                                (snd (getToken env1 first_start)))))))
    = [register_url; delete_url; register_url].
Proof.
  intros env1 env3.
  assert (H1 : ∃ info, getDeviceInfo env1 = Resolve info) by (eexists; reflexivity).
  assert (H3 : ∃ info, getDeviceInfo env3 = Resolve info) by (eexists; reflexivity).
  destruct H1 as [info1 H1]. destruct H3 as [info3 H3].
  destruct (getToken_unsubscribe_round_trip env1 env1 env3 first_start
              "fcm-1" "fcm-2" info1 info3)
    as (_ & _ & Hp & r1 & r2 & r3 & Hr & Hu1 & _ & Hu2 & _ & Hu3 & _);
    [reflexivity | reflexivity | discriminate | exact H1 | reflexivity
     | reflexivity | discriminate | exact H3 |].
  split; [exact Hp|]. rewrite Hr. cbn. rewrite Hu1, Hu2, Hu3. reflexivity.
Defined.

Lemma onTokenRefresh_cache (env : Env) (newFcmToken : string) (w : World) :
  getItem "isSubscribed" w = Some "true" →
  getItem "fcmToken" (onTokenRefresh env newFcmToken w) = Some newFcmToken.
Proof.
  intros Hs. unfold onTokenRefresh. rewrite decide_True by assumption.
  case_decide as Hc; [exact Hc|].
  destruct (getDeviceInfo env); cbn; apply lookup_insert_eq.
Qed.

(** X7. After a token refresh on a subscribed device, [getToken] resolves
    with the refreshed token and sends nothing, whether or not the update
    request of the refresh could be sent. *)
Theorem onTokenRefresh_then_getToken (env1 env2 : Env) (newFcmToken : string)
    (w : World) :
  getItem "isSubscribed" w = Some "true" → newFcmToken ≠ "" →
  fst (getToken env2 (onTokenRefresh env1 newFcmToken w))
  = [Resolve (VStr newFcmToken)]
  ∧ requests (snd (getToken env2 (onTokenRefresh env1 newFcmToken w)))
    = requests (onTokenRefresh env1 newFcmToken w).
Proof.
  intros Hs Hne.
  rewrite (getToken_cached env2 _ newFcmToken
             (onTokenRefresh_cache env1 newFcmToken w Hs) Hne).
  split; reflexivity.
Qed.

Lemma onTokenRefresh_then_getToken_witness :
  let env1 := no_device_info_env "ios" None in
  let env2 := sample_env "ios" (Some "fcm-9") None in
  fst (getToken env2 (onTokenRefresh env1 "new-token" subscribed_start))
  = [Resolve (VStr "new-token")]
  ∧ requests (snd (getToken env2 (onTokenRefresh env1 "new-token" subscribed_start)))
    = [].
Proof.
  intros env1 env2.
  destruct (onTokenRefresh_then_getToken env1 env2 "new-token" subscribed_start)
    as (Hp & Hr); [reflexivity | discriminate |].
  split; [exact Hp|]. rewrite Hr. reflexivity.
Defined.

(** X8. After an [unsubscribe] that the push library carried out, a token
    refresh is ignored: nothing is stored and nothing is sent, so that the
    cache stays empty until the next [getToken]. *)
Theorem unsubscribe_stops_refresh (env1 env2 : Env) (newFcmToken : string)
    (w : World) :
  messaging_deleteToken env1 = Resolve tt →
  onTokenRefresh env2 newFcmToken (snd (unsubscribe env1 w))
  = snd (unsubscribe env1 w)
  ∧ getItem "fcmToken" (onTokenRefresh env2 newFcmToken (snd (unsubscribe env1 w)))
    = None.
Proof.
  intros Hdel. pose proof (unsubscribe_storage env1 w Hdel) as Hs.
  assert (E : onTokenRefresh env2 newFcmToken (snd (unsubscribe env1 w))
              = snd (unsubscribe env1 w)).
  { unfold onTokenRefresh. rewrite decide_False; [reflexivity|].
    unfold getItem. rewrite Hs, lookup_insert_eq. discriminate. }
  split; [exact E|]. rewrite E. unfold getItem. rewrite Hs.
  rewrite lookup_insert_ne by discriminate. apply lookup_delete_eq.
Qed.

Lemma unsubscribe_stops_refresh_witness :
  let env := sample_env "android" (Some "fcm-1") None in
  requests (onTokenRefresh env "new-token" (snd (unsubscribe env subscribed_start)))
  = requests (snd (unsubscribe env subscribed_start))
  ∧ getItem "fcmToken"
      (onTokenRefresh env "new-token" (snd (unsubscribe env subscribed_start)))
    = None.
Proof.
  intros env.
  destruct (unsubscribe_stops_refresh env env "new-token" subscribed_start)
    as (E & Hc); [reflexivity|].
  split; [rewrite E; reflexivity | exact Hc].
Defined.

(** X9. When the device information cannot be read, a refresh on a
    subscribed device stores the new token and sends no update; a second
    delivery of the same token then finds it in the cache and sends nothing
    either, so that the backend keeps the old token. *)
Theorem onTokenRefresh_update_lost (env1 env2 : Env) (newFcmToken : string)
    (w : World) (e : value) :
  getItem "isSubscribed" w = Some "true" →
  getItem "fcmToken" w ≠ Some newFcmToken →
  getDeviceInfo env1 = Reject e →
  getItem "fcmToken" (onTokenRefresh env1 newFcmToken w) = Some newFcmToken
  ∧ requests (onTokenRefresh env1 newFcmToken w) = requests w
  ∧ onTokenRefresh env2 newFcmToken (onTokenRefresh env1 newFcmToken w)
    = onTokenRefresh env1 newFcmToken w.
Proof.
  intros Hs Hne Hinfo.
  assert (E : onTokenRefresh env1 newFcmToken w = setItem "fcmToken" newFcmToken w).
  { unfold onTokenRefresh. rewrite decide_True by assumption.
    rewrite decide_False by assumption. rewrite Hinfo. reflexivity. }
  rewrite E. split; [apply getItem_setItem_eq|]. split; [reflexivity|].
  unfold onTokenRefresh.
  rewrite decide_True by (rewrite getItem_setItem_ne by discriminate; exact Hs).
  rewrite decide_True by apply getItem_setItem_eq. reflexivity.
Qed.

Lemma onTokenRefresh_update_lost_witness :
  let env1 := no_device_info_env "ios" None in
  let env2 := sample_env "ios" None None in
  getItem "fcmToken" (onTokenRefresh env1 "new-token" subscribed_start)
  = Some "new-token"
  ∧ requests (onTokenRefresh env2 "new-token"
                (onTokenRefresh env1 "new-token" subscribed_start)) = [].
Proof.
  intros env1 env2.
  destruct (onTokenRefresh_update_lost env1 env2 "new-token" subscribed_start
              (VStr "no brand"))
    as (Hc & Hr & E); [reflexivity | discriminate | reflexivity |].
  split; [exact Hc|]. rewrite E, Hr. reflexivity.
Defined.

(** ** The telemetry reporter *)

Lemma sendLog_requests (env : Env) (eventType : string) (n : Notification)
    (customParam : obj) (w : World) :
  requests (sendLog env eventType n customParam w)
  = requests w
    ++ match _data n, data n, storage_config w with
       | Some d_, Some d, Some localConfig =>
           [{| url := log_url; method := "POST";
               headers := spread (list_to_map
                                    [("Accept", VStr "application/json");
                                     ("Content-Type", VStr "application/json")]) ∅;
               payload := JSON_stringify
                            (log_body env eventType d_ d localConfig
                               (getItem "fcmToken" w) customParam) |}]
       | _, _, _ => []
       end.
Proof.
  unfold sendLog, log_body.
  destruct (_data n) as [d_|]; [|symmetry; apply app_nil_r].
  destruct (data n) as [d|]; [|symmetry; apply app_nil_r].
  destruct (storage_config w) as [lc|]; [|symmetry; apply app_nil_r].
  cbv zeta.
  rewrite (proj1 (sendRequest_logged_fields env log_url ∅ _ "POST" _)).
  rewrite sendRequest_requests. reflexivity.
Qed.

Lemma log_body_lookup (env : Env) (eventType : string) (d_ d localConfig : obj)
    (token : option string) (customParam : obj) (k : string) :
  k ≠ "displayedAt" → k ≠ "tappedAt" →
  log_body env eventType d_ d localConfig token customParam !! k
  = match customParam !! k with
    | Some v => Some v
    | None =>
        (list_to_map
           [("apiKey", prop localConfig "apiKey");
            ("fcmToken", of_item token);
            ("event", VStr eventType);
            ("sendId", if decide (prop d_ "sendId" = VUndefined) then VNum 0
                       else prop d_ "sendId");
            ("tag", if decide (prop d "tag" = VUndefined) then VStr ""
                    else prop d "tag");
            ("os", VStr (OS env))] : obj) !! k
    end.
Proof.
  intros H1 H2. unfold log_body.
  destruct (String.eqb eventType "display");
    [|destruct (String.eqb eventType "tap")];
    rewrite ?lookup_insert_ne by congruence; apply spread_lookup.
Qed.

Lemma log_body_times (env : Env) (eventType : string) (d_ d localConfig : obj)
    (token : option string) :
  log_body env eventType d_ d localConfig token ∅ !! "displayedAt"
  = (if String.eqb eventType "display" then Some (VNum (Date_now env / 1000))
     else None)
  ∧ log_body env eventType d_ d localConfig token ∅ !! "tappedAt"
    = (if String.eqb eventType "display" then None
       else if String.eqb eventType "tap" then Some (VNum (Date_now env / 1000))
       else None).
Proof.
  unfold log_body.
  destruct (String.eqb eventType "display");
    [|destruct (String.eqb eventType "tap")];
    split; rewrite ?lookup_insert_eq, ?lookup_insert_ne by discriminate;
    try reflexivity;
    rewrite spread_lookup, lookup_empty; literal_lookup; reflexivity.
Qed.

Lemma in_json_of_item (t : option string) : in_json (of_item t) = Some (of_item t).
Proof. destruct t; reflexivity. Qed.

(** X10. [sendLog] with no parameter of its own sends nothing when the
    notification has no [_data] or no [data], or when the store has no
    configuration.  Otherwise it sends exactly one [POST] to the log
    endpoint, with the event, the platform, the cached token or [null], 0
    for a missing [sendId], the empty string for a missing [tag], and the
    time in seconds under [displayedAt] for a ['display'] and under
    [tappedAt] for a ['tap']; the body has no [initial]. *)
Theorem sendLog_report (env : Env) (eventType : string) (n : Notification)
    (w : World) :
  (_data n = None ∨ data n = None ∨ storage_config w = None →
   sendLog env eventType n ∅ w = w)
  ∧ (∀ d_ d localConfig,
       _data n = Some d_ → data n = Some d → storage_config w = Some localConfig →
       ∃ r, requests (sendLog env eventType n ∅ w) = requests w ++ [r]
            ∧ url r = log_url ∧ method r = "POST"
            ∧ payload r !! "event" = Some (VStr eventType)
            ∧ payload r !! "os" = Some (VStr (OS env))
            ∧ payload r !! "fcmToken" = Some (of_item (getItem "fcmToken" w))
            ∧ (prop d_ "sendId" = VUndefined →
               payload r !! "sendId" = Some (VNum 0))
            ∧ (prop d "tag" = VUndefined → payload r !! "tag" = Some (VStr ""))
            ∧ payload r !! "displayedAt"
              = (if String.eqb eventType "display"
                 then Some (VNum (Date_now env / 1000)) else None)
            ∧ payload r !! "tappedAt"
              = (if String.eqb eventType "display" then None
                 else if String.eqb eventType "tap"
                 then Some (VNum (Date_now env / 1000)) else None)
            ∧ payload r !! "initial" = None).
Proof.
  split.
  - unfold sendLog. intros [H | [H | H]]; rewrite H; [reflexivity| |].
    + destruct (_data n); reflexivity.
    + destruct (_data n); [destruct (data n)|]; reflexivity.
  - intros d_ d lc H_ Hd Hc. rewrite sendLog_requests, H_, Hd, Hc.
    eexists. split; [reflexivity|]. cbn [url method payload].
    split; [reflexivity|]. split; [reflexivity|].
    rewrite !JSON_stringify_lookup.
    destruct (log_body_times env eventType d_ d lc (getItem "fcmToken" w))
      as [Hdisp Htap].
    rewrite Hdisp, Htap, !log_body_lookup, !lookup_empty by discriminate.
    literal_lookup.
    split; [reflexivity|]. split; [reflexivity|].
    split; [cbn; apply in_json_of_item|].
    split; [intros ->; reflexivity|]. split; [intros ->; reflexivity|].
    split; [destruct (String.eqb eventType "display"); reflexivity|].
    split; [|reflexivity].
    destruct (String.eqb eventType "display"); [reflexivity|].
    destruct (String.eqb eventType "tap"); reflexivity.
Qed.

Lemma sendLog_report_witness :
  let env := sample_env "ios" None None in
  sendLog env "display" sample_notification ∅ first_start = first_start
  ∧ map url (requests (sendLog env "display" sample_notification ∅ subscribed_start))
    = [log_url].
Proof.
  intros env.
  destruct (sendLog_report env "display" sample_notification first_start)
    as [Hnone _].
  destruct (sendLog_report env "display" sample_notification subscribed_start)
    as [_ Hone].
  destruct (Hone sample_data sample_data {["apiKey" := VStr "key-1"]})
    as (r & Hr & Hu & _); [reflexivity | reflexivity | reflexivity |].
  split; [apply Hnone; right; right; reflexivity|].
  rewrite Hr. cbn. rewrite Hu. reflexivity.
Defined.

(** ** Taps while the application runs *)

(** X11. A tap on a notification while the application runs, with a
    function for a callback: the notification is removed and the callback
    is called exactly once with the data of the notification.  If that
    call returns, then, when the notification carries its data and the
    store has a configuration, exactly one ['tap'] log is sent, whose body
    has no [initial], and with no configuration in the store nothing is
    sent.  If the call throws, nothing is sent. *)
Theorem onNotificationOpened_tap (env : Env) (notificationOpen : NotificationOpen)
    (w : World) (f : nat) :
  prop (config w) "callbackAfterTap" = VFun f →
  removeDeliveredNotification env (_notificationId (notification notificationOpen))
  = Resolve tt →
  taps (onNotificationOpened env notificationOpen w)
  = taps w ++ [(f, data (notification notificationOpen))]
  ∧ removed (onNotificationOpened env notificationOpen w)
    = removed w ++ [_notificationId (notification notificationOpen)]
  ∧ (callbackAfterTap_returns env f (data (notification notificationOpen)) = true →
     (∀ d_ d localConfig,
        _data (notification notificationOpen) = Some d_ →
        data (notification notificationOpen) = Some d →
        storage_config w = Some localConfig →
        ∃ r, requests (onNotificationOpened env notificationOpen w)
             = requests w ++ [r]
             ∧ url r = log_url
             ∧ payload r !! "event" = Some (VStr "tap")
             ∧ payload r !! "tappedAt" = Some (VNum (Date_now env / 1000))
             ∧ payload r !! "initial" = None)
     ∧ (storage_config w = None →
        requests (onNotificationOpened env notificationOpen w) = requests w))
  ∧ (callbackAfterTap_returns env f (data (notification notificationOpen)) = false →
     requests (onNotificationOpened env notificationOpen w) = requests w).
Proof.
  intros Hf Hrem.
  unfold onNotificationOpened, handle_tap, call_callbackAfterTap.
  rewrite Hrem. cbn [config set_removed log_text console_log set_console].
  rewrite Hf.
  destruct (callbackAfterTap_returns env f (data (notification notificationOpen)));
    [|cbn; split; [reflexivity|]; split; [reflexivity|];
      split; [discriminate | reflexivity]].
  cbn [snd].
  match goal with |- context [sendLog env "tap" ?n ∅ ?w1] =>
    pose proof (sendLog_frame env "tap" n ∅ w1) as (_ & _ & _ & Ht & _ & _ & Hr);
    pose proof (sendLog_requests env "tap" n ∅ w1) as Hq
  end.
  rewrite Ht, Hr. split; [reflexivity|]. split; [reflexivity|].
  clear Ht Hr. world_simpl.
  split; [|discriminate]. intros _. split.
  - intros d_ d lc H_ Hd Hc. rewrite Hq, H_, Hd, Hc.
    eexists. split; [reflexivity|]. cbn [url payload]. split; [reflexivity|].
    rewrite !JSON_stringify_lookup.
    match goal with |- context [log_body env "tap" d_ d lc ?tok ∅] =>
      destruct (log_body_times env "tap" d_ d lc tok) as [_ Htap]
    end.
    rewrite Htap, !log_body_lookup, !lookup_empty by discriminate.
    literal_lookup. repeat split.
  - intros Hc. rewrite Hq, Hc.
    destruct (_data (notification notificationOpen));
      [destruct (data (notification notificationOpen))|]; apply app_nil_r.
Qed.

Lemma onNotificationOpened_tap_witness :
  let env := sample_env "ios" None None in
  taps (onNotificationOpened env sample_open subscribed_start)
  = [(0%nat, Some sample_data)]
  ∧ map url (requests (onNotificationOpened env sample_open subscribed_start))
    = [log_url]
  ∧ requests (onNotificationOpened env sample_open first_start) = []
  ∧ requests (onNotificationOpened (throwing_callback_env "ios") sample_open
                subscribed_start) = [].
Proof.
  intros env.
  destruct (onNotificationOpened_tap env sample_open subscribed_start 0)
    as (Ht & _ & Hlog & _); [reflexivity | reflexivity |].
  destruct (onNotificationOpened_tap env sample_open first_start 0)
    as (_ & _ & Hnone & _); [reflexivity | reflexivity |].
  destruct (onNotificationOpened_tap (throwing_callback_env "ios") sample_open
              subscribed_start 0)
    as (_ & _ & _ & Hthrow); [reflexivity | reflexivity |].
  destruct (Hlog eq_refl) as [Hone _].
  destruct (Hnone eq_refl) as [_ Hzero].
  destruct (Hone sample_data sample_data {["apiKey" := VStr "key-1"]})
    as (r & Hr & Hu & _); [reflexivity | reflexivity | reflexivity |].
  split; [exact Ht|]. split; [rewrite Hr; cbn; rewrite Hu; reflexivity|].
  split; [apply Hzero; reflexivity | apply Hthrow; reflexivity].
Defined.

(** X12. [setCallback] with a value that is not a function rejects and yet
    installs the value, without writing to the store.  From then on a tap
    removes the notification but calls nothing and reports nothing, and a
    cold-start check on a process started by a tap never settles. *)
Theorem setCallback_not_a_function (env : Env) (callback : value) (w : World)
    (notificationOpen : NotificationOpen) :
  is_function callback = false →
  state (fst (setCallback callback w))
  = Some (Reject (VStr "Callback must be a function"))
  ∧ prop (config (snd (setCallback callback w))) "callbackAfterTap" = callback
  ∧ storage_config (snd (setCallback callback w)) = storage_config w
  ∧ taps (onNotificationOpened env notificationOpen (snd (setCallback callback w)))
    = taps w
  ∧ requests (onNotificationOpened env notificationOpen (snd (setCallback callback w)))
    = requests w
  ∧ removed (onNotificationOpened env notificationOpen (snd (setCallback callback w)))
    = removed w ++ [_notificationId (notification notificationOpen)]
  ∧ (getInitialNotification env = Resolve (Some notificationOpen) →
     fst (checkIfOpenedByNotification env (snd (setCallback callback w))) = []).
Proof.
  intros Hf.
  assert (Hp : prop (config (snd (setCallback callback w))) "callbackAfterTap"
               = callback).
  { unfold setCallback, prop. cbn. rewrite lookup_insert_eq. reflexivity. }
  assert (Htap : ∀ cp w0, config w0 = config (snd (setCallback callback w)) →
            handle_tap env (notification notificationOpen) cp w0
            = (false, set_removed (removed w0 ++ [_notificationId (notification notificationOpen)]) w0)).
  { intros cp w0 Hc. unfold handle_tap, call_callbackAfterTap.
    cbn [config set_removed]. rewrite Hc, Hp.
    destruct (removeDeliveredNotification env _); [|reflexivity].
    destruct callback; try reflexivity. discriminate Hf. }
  split; [unfold setCallback; destruct callback; try reflexivity; discriminate Hf|].
  split; [exact Hp|]. split; [reflexivity|].
  unfold onNotificationOpened, checkIfOpenedByNotification.
  rewrite !Htap by reflexivity.
  split; [reflexivity|]. split; [reflexivity|]. split; [reflexivity|].
  intros ->. rewrite Htap by reflexivity. reflexivity.
Qed.

Lemma setCallback_not_a_function_witness :
  let env := sample_env "ios" None (Some sample_open) in
  let w := snd (setCallback (VStr "later") subscribed_start) in
  taps (onNotificationOpened env sample_open w) = []
  ∧ requests (onNotificationOpened env sample_open w) = []
  ∧ fst (checkIfOpenedByNotification env w) = [].
Proof.
  intros env w.
  destruct (setCallback_not_a_function env (VStr "later") subscribed_start sample_open)
    as (_ & _ & _ & Ht & Hr & _ & Hp); [reflexivity|].
  split; [exact Ht|]. split; [exact Hr|]. apply Hp. reflexivity.
Defined.

(** ** Display logs and rendering *)

(** X13. A ['display'] log has one sender per platform: the handler of
    displayed notifications sends nothing unless the platform is ['ios'],
    and [displayLocalNotification] sends nothing unless it is
    ['android']. *)
Theorem display_log_one_sender (env : Env) (n : Notification) (dataOnly : bool)
    (w : World) :
  (OS env ≠ "ios" → requests (onNotificationDisplayed env n w) = requests w)
  ∧ (OS env ≠ "android" →
     requests (displayLocalNotification env n dataOnly w) = requests w).
Proof.
  split.
  - intros H. apply String.eqb_neq in H. unfold onNotificationDisplayed.
    rewrite H. reflexivity.
  - intros H. apply String.eqb_neq in H.
    unfold displayLocalNotification, createAndroidChannel. rewrite H.
    destruct (String.eqb (OS env) "ios"); [|reflexivity].
    cbn [state head]. destruct (data n); [|reflexivity].
    destruct (displayNotification env _); reflexivity.
Qed.

Lemma display_log_one_sender_witness :
  requests (onNotificationDisplayed (sample_env "android" None None)
              sample_notification subscribed_start) = []
  ∧ requests (displayLocalNotification (sample_env "ios" None None)
                sample_notification false subscribed_start) = [].
Proof.
  split.
  - apply (display_log_one_sender (sample_env "android" None None)
             sample_notification false subscribed_start). discriminate.
  - apply (display_log_one_sender (sample_env "ios" None None)
             sample_notification false subscribed_start). discriminate.
Defined.



(** X15. When the push library fails to display the notification, the
    error is logged to the console and no ['display'] log is sent, on any
    platform. *)
Theorem displayLocalNotification_failure (env : Env) (n : Notification)
    (dataOnly : bool) (w : World) (err : value) :
  (∀ ln, displayNotification env ln = Reject err) →
  requests (displayLocalNotification env n dataOnly w) = requests w
  ∧ (∀ d, data n = Some d →
          fst (createAndroidChannel env false w) = [Resolve VUndefined] →
          last (console (displayLocalNotification env n dataOnly w))
          = Some [LVal err]).
Proof.
  intros Hfail. unfold displayLocalNotification.
  pose proof (createAndroidChannel_frame env false w)
    as (_ & _ & _ & _ & _ & _ & _ & Hr).
  destruct (createAndroidChannel env false w) as [p w1]. cbn [fst snd] in *.
  split.
  - destruct (state p) as [[?|?]|]; try exact Hr.
    destruct (data n); [|exact Hr]. rewrite Hfail. exact Hr.
  - intros d Hd ->. cbn [state head]. rewrite Hd, Hfail.
    cbn [console_log set_console console]. apply last_snoc.
Qed.

Lemma displayLocalNotification_failure_witness :
  let env := {| OS := "android"; messaging_getToken := Resolve None;
                messaging_deleteToken := Resolve tt;
                getInitialNotification := Resolve None;
                removeDeliveredNotification := λ _, Resolve tt;
                createChannelGroup := Resolve tt; createChannel := Resolve tt;
                displayNotification := λ _, Reject (VStr "no channel");
                getUniqueId := Resolve VNull; getBrand := Resolve VNull;
                getModel := Resolve VNull; getDeviceId := Resolve VNull;
                getSystemVersion := Resolve VNull;
                fetch := λ _, Resolve VNull; Date_now := 0;
                callbackAfterTap_returns := λ _ _, true |} in
  requests (displayLocalNotification env sample_notification true subscribed_start)
  = []
  ∧ last (console (displayLocalNotification env sample_notification true
                     subscribed_start))
    = Some [LVal (VStr "no channel")].
Proof.
  intros env.
  destruct (displayLocalNotification_failure env sample_notification true
              subscribed_start (VStr "no channel")) as (Hr & Hc);
    [reflexivity|].
  split; [exact Hr|]. apply (Hc sample_data); reflexivity.
Defined.

(** ** [init], from its first step to its last *)

(** The promise of [createAndroidChannel] does not depend on the world. *)
Lemma createAndroidChannel_cases (env : Env) (group : bool) (w : World) :
  (fst (createAndroidChannel env group w) = [Resolve VUndefined]
   ∧ (OS env = "android" ∨ OS env = "ios"))
  ∨ fst (createAndroidChannel env group w) = []
  ∨ (fst (createAndroidChannel env group w)
     = [Reject (VStr "Error when creating channel")]
     ∧ OS env = "android").
Proof.
  unfold createAndroidChannel.
  destruct (String.eqb (OS env) "android") eqn:Ha.
  - apply String.eqb_eq in Ha.
    destruct group;
      [destruct (createChannelGroup env) | destruct (createChannel env)];
      cbn; auto.
  - destruct (String.eqb (OS env) "ios") eqn:Hi; cbn; auto.
    apply String.eqb_eq in Hi. auto.
Qed.

(** What [init] makes of the listeners and of its promise, by cases. *)
Lemma init_cases (env : Env) (cfg : obj) (w : World) :
  (fst (init env cfg w) = [Resolve VUndefined]
   ∧ listeners (snd (init env cfg w)) = listeners w ++ five_listeners
   ∧ valid_config (spread (config w) cfg) = true
   ∧ (OS env = "android" ∨ OS env = "ios"))
  ∨ ((fst (init env cfg w) = [] ∨ ∃ e, fst (init env cfg w) = [Reject e])
     ∧ listeners (snd (init env cfg w)) = listeners w).
Proof.
  destruct (valid_config (spread (config w) cfg)) eqn:Hv.
  - rewrite (init_valid env cfg w Hv).
    pose proof (checkIfOpenedByNotification_frame env (snd (checkParams cfg w)))
      as (_ & _ & _ & _ & Hl).
    pose proof (checkIfOpenedByNotification_state env (snd (checkParams cfg w)))
      as Hp2.
    destruct (checkIfOpenedByNotification env (snd (checkParams cfg w)))
      as [p2 w2]. cbn [fst snd] in Hl, Hp2.
    destruct Hp2 as [-> | ->]; cbn [state head]; [right; cbn; auto|].
    pose proof (createAndroidChannel_frame env true w2)
      as (_ & _ & _ & _ & _ & Gl & _).
    pose proof (createAndroidChannel_cases env true w2) as Hp3.
    destruct (createAndroidChannel env true w2) as [p3 w3].
    cbn [fst snd] in Gl, Hp3.
    destruct Hp3 as [[-> Hos] | [-> | [-> _]]]; cbn [state head].
    + left. cbn. rewrite Gl, Hl. auto.
    + right. cbn. rewrite Gl, Hl. auto.
    + right. cbn. rewrite Gl, Hl. eauto.
  - destruct (init_invalid env cfg w Hv) as (reason & later & _ & ->).
    right. cbn. eauto.
Qed.

(** X16. [init] calls [resolve] or [reject] at most once, and it attaches
    the five listeners exactly when it resolves, which needs a
    configuration that passes the checks and a platform that is ['android']
    or ['ios']; in every other case no listener is attached. *)
Theorem init_listeners_iff_resolved (env : Env) (cfg : obj) (w : World) :
  (length (fst (init env cfg w)) ≤ 1)%nat
  ∧ (fst (init env cfg w) = [Resolve VUndefined] →
     listeners (snd (init env cfg w)) = listeners w ++ five_listeners
     ∧ valid_config (spread (config w) cfg) = true
     ∧ (OS env = "android" ∨ OS env = "ios"))
  ∧ (fst (init env cfg w) ≠ [Resolve VUndefined] →
     listeners (snd (init env cfg w)) = listeners w
     ∧ ∀ v, state (fst (init env cfg w)) ≠ Some (Resolve v)).
Proof.
  destruct (init_cases env cfg w) as [(Hp & Hl & Hv & Hos) | [Hp Hl]].
  - rewrite Hp. split; [cbn; lia|]. split; [auto|]. intros H. congruence.
  - split; [destruct Hp as [-> | [e ->]]; cbn; lia|].
    split; [intros H; destruct Hp as [Hp | [e Hp]]; rewrite Hp in H; discriminate|].
    intros _. split; [exact Hl|].
    intros v. destruct Hp as [-> | [e ->]]; discriminate.
Qed.

Lemma init_listeners_iff_resolved_witness :
  let env := sample_env "ios" None None in
  listeners (snd (init env {["apiKey" := VStr "key-1"]} first_start))
  = five_listeners
  ∧ listeners (snd (init env {["apiKey" := VNum 5]} first_start)) = [].
Proof.
  intros env.
  destruct (init_listeners_iff_resolved env {["apiKey" := VStr "key-1"]} first_start)
    as (_ & Hyes & _).
  destruct (init_listeners_iff_resolved env {["apiKey" := VNum 5]} first_start)
    as (_ & _ & Hno).
  split; [apply Hyes; reflexivity | apply Hno; discriminate].
Defined.

(** X17. [init] has no guard against a second call: two calls that resolve
    attach the five listeners twice. *)
Theorem init_twice_attaches_twice (env1 env2 : Env) (cfg1 cfg2 : obj) (w : World) :
  fst (init env1 cfg1 w) = [Resolve VUndefined] →
  fst (init env2 cfg2 (snd (init env1 cfg1 w))) = [Resolve VUndefined] →
  listeners (snd (init env2 cfg2 (snd (init env1 cfg1 w))))
  = listeners w ++ five_listeners ++ five_listeners.
Proof.
  intros H1 H2.
  destruct (init_cases env1 cfg1 w) as [(_ & Hl1 & _) | [Hp _]];
    [|destruct Hp as [Hp | [e Hp]]; rewrite Hp in H1; discriminate].
  destruct (init_cases env2 cfg2 (snd (init env1 cfg1 w)))
    as [(_ & Hl2 & _) | [Hp _]];
    [|destruct Hp as [Hp | [e Hp]]; rewrite Hp in H2; discriminate].
  rewrite Hl2, Hl1, <- app_assoc. reflexivity.
Qed.

Lemma init_twice_attaches_twice_witness :
  let env := sample_env "android" None None in
  let cfg : obj := {["apiKey" := VStr "key-1"]} in
  length (listeners (snd (init env ∅ (snd (init env cfg first_start))))) = 10%nat.
Proof.
  intros env cfg.
  rewrite (init_twice_attaches_twice env env cfg ∅ first_start);
    reflexivity.
Defined.

(** X18. On ['android'], when the push library fails to create the channel
    group, an [init] whose first two steps went through rejects with
    ['Error when creating channel'] in place of the error of the library
    and attaches no listener; the configuration is stored all the same. *)
Theorem init_channel_failure (env : Env) (cfg : obj) (w : World) (e : value) :
  OS env = "android" → createChannelGroup env = Reject e →
  valid_config (spread (config w) cfg) = true →
  fst (checkIfOpenedByNotification env (snd (checkParams cfg w)))
  = [Resolve VUndefined] →
  fst (init env cfg w) = [Reject (VStr "Error when creating channel")]
  ∧ listeners (snd (init env cfg w)) = listeners w
  ∧ storage_config (snd (init env cfg w))
    = Some (JSON_stringify (spread (config w) cfg)).
Proof.
  intros Hos Hch Hv Hcold.
  pose proof (init_frame env cfg w) as (_ & Hs & _).
  split; [|split; [|exact Hs]].
  - rewrite (init_valid env cfg w Hv).
    destruct (checkIfOpenedByNotification env (snd (checkParams cfg w)))
      as [p2 w2]. cbn [fst] in Hcold. subst p2. cbn [state head].
    unfold createAndroidChannel. rewrite Hos, Hch. reflexivity.
  - destruct (init_cases env cfg w) as [(Hp & _) | [_ Hl]]; [|exact Hl].
    exfalso. revert Hp. rewrite (init_valid env cfg w Hv).
    destruct (checkIfOpenedByNotification env (snd (checkParams cfg w)))
      as [p2 w2]. cbn [fst] in Hcold. subst p2. cbn [state head].
    unfold createAndroidChannel. rewrite Hos, Hch. discriminate.
Qed.

Lemma init_channel_failure_witness :
  let env := {| OS := "android"; messaging_getToken := Resolve None;
                messaging_deleteToken := Resolve tt;
                getInitialNotification := Resolve None;
                removeDeliveredNotification := λ _, Resolve tt;
                createChannelGroup := Reject (VStr "play services missing");
                createChannel := Resolve tt;
                displayNotification := λ _, Resolve tt;
                getUniqueId := Resolve VNull; getBrand := Resolve VNull;
                getModel := Resolve VNull; getDeviceId := Resolve VNull;
                getSystemVersion := Resolve VNull;
                fetch := λ _, Resolve VNull; Date_now := 0;
                callbackAfterTap_returns := λ _ _, true |} in
  fst (init env {["apiKey" := VStr "key-1"]} first_start)
  = [Reject (VStr "Error when creating channel")]
  ∧ listeners (snd (init env {["apiKey" := VStr "key-1"]} first_start)) = [].
Proof.
  intros env.
  destruct (init_channel_failure env {["apiKey" := VStr "key-1"]} first_start
              (VStr "play services missing")) as (Hp & Hl & _);
    [reflexivity | reflexivity | reflexivity | reflexivity |].
  split; [exact Hp | exact Hl].
Defined.

(** X19. Two calls of [init] add up: the configuration after the second is
    the first configuration with the properties of the second over it, so
    that a property the second call leaves out keeps the value of the
    first, in the module and in the store. *)
Theorem init_is_cumulative (env1 env2 : Env) (cfg1 cfg2 : obj) (w : World) :
  config (snd (init env2 cfg2 (snd (init env1 cfg1 w))))
  = spread (config w) (spread cfg1 cfg2)
  ∧ storage_config (snd (init env2 cfg2 (snd (init env1 cfg1 w))))
    = Some (JSON_stringify (spread (config w) (spread cfg1 cfg2)))
  ∧ (∀ k, cfg2 !! k = None →
          prop (config (snd (init env2 cfg2 (snd (init env1 cfg1 w))))) k
          = prop (config (snd (init env1 cfg1 w))) k).
Proof.
  pose proof (init_frame env1 cfg1 w) as (Hc1 & _ & _).
  pose proof (init_frame env2 cfg2 (snd (init env1 cfg1 w))) as (Hc2 & Hs2 & _).
  rewrite Hc1 in Hc2, Hs2.
  assert (E : spread (spread (config w) cfg1) cfg2
              = spread (config w) (spread cfg1 cfg2)).
  { unfold spread. apply (assoc_L (∪)). }
  rewrite E in Hc2, Hs2. split; [exact Hc2|]. split; [exact Hs2|].
  intros k Hk. rewrite Hc2, Hc1. unfold prop.
  rewrite !spread_lookup, Hk. reflexivity.
Qed.

Lemma init_is_cumulative_witness :
  let env := sample_env "ios" None None in
  prop (config (snd (init env {["userEmail" := VStr "a@b.com"]}
                       (snd (init env {["apiKey" := VStr "key-1"]} first_start)))))
       "apiKey"
  = VStr "key-1".
Proof.
  intros env.
  destruct (init_is_cumulative env env {["apiKey" := VStr "key-1"]}
              {["userEmail" := VStr "a@b.com"]} first_start) as (_ & _ & H).
  rewrite (H "apiKey"); reflexivity.
Defined.

(** X20. The third check of [checkParams] looks at [apiKey] again, not at
    [bundleId]: the value of [bundleId] has no part in the validation, and
    ['Bundle ID must be string'] is never the reason a promise is rejected
    with. *)
Theorem bundleId_is_not_checked (cfg : obj) (w : World) (v : value) :
  valid_config (<["bundleId" := v]> (spread (config w) cfg))
  = valid_config (spread (config w) cfg)
  ∧ rejections (<["bundleId" := v]> (spread (config w) cfg))
    = rejections (spread (config w) cfg)
  ∧ state (fst (checkParams cfg w))
    ≠ Some (Reject (VStr "Bundle ID must be string")).
Proof.
  assert (Hp : ∀ c k, k ≠ "bundleId" → prop (<["bundleId" := v]> c) k = prop c k).
  { intros c k Hk. unfold prop. rewrite lookup_insert_ne by congruence. reflexivity. }
  split; [|split].
  - unfold valid_config. rewrite !Hp by discriminate. reflexivity.
  - unfold rejections. rewrite !Hp by discriminate. reflexivity.
  - unfold checkParams, rejections. world_simpl.
    destruct (is_string _); [|discriminate].
    destruct (bad_email _); [discriminate|].
    destruct (is_function _); discriminate.
Qed.

(** ** The store and the configuration *)

Lemma getToken_config_frame (env : Env) (w : World) :
  config (snd (getToken env w)) = config w
  ∧ storage_config (snd (getToken env w)) = storage_config w.
Proof.
  unfold getToken, sendRequest_logged, sendRequest.
  split_matches; cbn; auto.
Qed.

Lemma unsubscribe_config_frame (env : Env) (w : World) :
  config (snd (unsubscribe env w)) = config w
  ∧ storage_config (snd (unsubscribe env w)) = storage_config w.
Proof.
  unfold unsubscribe, sendRequest. split_matches; cbn; auto.
Qed.

Lemma onTokenRefresh_config_frame (env : Env) (t : string) (w : World) :
  config (onTokenRefresh env t w) = config w
  ∧ storage_config (onTokenRefresh env t w) = storage_config w.
Proof.
  unfold onTokenRefresh, sendRequest. split_matches; cbn; auto.
Qed.

Lemma stringify_insert_function (c : obj) (k : string) (f : nat) :
  is_function (prop c k) = true →
  JSON_stringify (<[k := VFun f]> c) = JSON_stringify c.
Proof.
  intros Hf. apply map_eq. intros i. rewrite !JSON_stringify_lookup.
  destruct (decide (i = k)) as [->|Hne].
  - rewrite lookup_insert_eq. unfold prop in Hf.
    destruct (c !! k) as [[]|]; try discriminate. reflexivity.
  - rewrite lookup_insert_ne by congruence. reflexivity.
Qed.

(** X21. The stored configuration follows the configuration of the module:
    after [checkParams], [init] and [setEmail] the store holds what
    [JSON.stringify] makes of it; [setCallback] with a function, [getToken],
    [unsubscribe] and a token refresh keep that agreement; and the stored
    document never has a function or [undefined] for a value. *)
Theorem config_store_in_sync (env : Env) (cfg : obj) (email : value) (f : nat)
    (newFcmToken : string) (w : World) :
  in_sync (snd (checkParams cfg w))
  ∧ in_sync (snd (init env cfg w))
  ∧ in_sync (snd (setEmail email w))
  ∧ (in_sync w → is_function (prop (config w) "callbackAfterTap") = true →
     in_sync (snd (setCallback (VFun f) w)))
  ∧ (in_sync w →
     in_sync (snd (getToken env w)) ∧ in_sync (snd (unsubscribe env w))
     ∧ in_sync (onTokenRefresh env newFcmToken w))
  ∧ (∀ doc k v, storage_config (snd (init env cfg w)) = Some doc →
                doc !! k = Some v → in_json v = Some v).
Proof.
  unfold in_sync.
  pose proof (init_frame env cfg w) as (Hc & Hs & _).
  split; [reflexivity|]. split; [rewrite Hs, Hc; reflexivity|].
  split; [reflexivity|]. split; [|split].
  - intros Hw Hf. unfold setCallback. cbn.
    rewrite (stringify_insert_function _ _ _ Hf). exact Hw.
  - intros Hw.
    destruct (getToken_config_frame env w) as [-> ->].
    destruct (unsubscribe_config_frame env w) as [-> ->].
    destruct (onTokenRefresh_config_frame env newFcmToken w) as [-> ->].
    auto.
  - intros doc k v Hdoc Hk. rewrite Hs in Hdoc. injection Hdoc as <-.
    rewrite JSON_stringify_lookup in Hk.
    destruct (spread (config w) cfg !! k) as [[]|]; cbn in Hk;
      try discriminate; injection Hk as <-; reflexivity.
Qed.

Lemma config_store_in_sync_witness :
  let env := sample_env "ios" (Some "fcm-1") None in
  let w := snd (init env {["apiKey" := VStr "key-1"]} first_start) in
  in_sync (snd (setCallback (VFun 3) w)) ∧ in_sync (snd (getToken env w)).
Proof.
  intros env w.
  destruct (config_store_in_sync env {["apiKey" := VStr "key-1"]} VNull 3 ""
              first_start) as (_ & Hw & _).
  destruct (config_store_in_sync env ∅ VNull 3 "" w)
    as (_ & _ & _ & Hcb & Hops & _).
  split; [apply Hcb; [exact Hw | reflexivity] | apply Hops, Hw].
Defined.

(** ** What goes over the network *)














(** ** The address of the user *)

(** X23. [setEmail] with an address that passes, the empty one included,
    resolves, and the address reaches the backend: the store holds it, and
    the next [getToken] on an empty cache registers the token with it. *)
Theorem setEmail_then_getToken (env : Env) (w : World) (email t : string)
    (info : obj) :
  bad_email (VStr email) = false →
  truthy (getItem "fcmToken" w) = false →
  messaging_getToken env = Resolve (Some t) → t ≠ "" →
  getDeviceInfo env = Resolve info →
  fst (setEmail (VStr email) w) = [Resolve VNull]
  ∧ (∃ doc, storage_config (snd (setEmail (VStr email) w)) = Some doc
            ∧ doc !! "userEmail" = Some (VStr email))
  ∧ ∃ r, requests (snd (getToken env (snd (setEmail (VStr email) w))))
         = requests w ++ [r]
         ∧ url r = register_url
         ∧ payload r !! "email" = Some (VStr email).
Proof.
  intros Hok Hempty Hlib Ht Hinfo.
  split; [unfold setEmail; rewrite Hok; reflexivity|].
  split.
  { eexists. split; [reflexivity|]. cbn [config set_config].
    rewrite JSON_stringify_lookup, lookup_insert_eq. reflexivity. }
  rewrite (getToken_fresh env _ t info) by assumption.
  cbn [snd log_text console_log set_console requests].
  eexists. split.
  { rewrite (proj1 (sendRequest_logged_fields env register_url ∅ _ "POST" _)).
    rewrite sendRequest_requests. reflexivity. }
  cbn [url payload]. split; [reflexivity|].
  rewrite register_body_lookup.
  rewrite (getDeviceInfo_lookup env _ _ Hinfo) by literal_notin.
  rewrite decide_False by discriminate. rewrite decide_True by reflexivity.
  unfold setEmail, prop. cbn [snd config set_config setItem_config
                                set_storage_config].
  rewrite lookup_insert_eq. reflexivity.
Qed.

Lemma setEmail_then_getToken_witness :
  let env := sample_env "ios" (Some "fcm-1") None in
  validateEmail "" = false
  ∧ fst (setEmail (VStr "") first_start) = [Resolve VNull]
  ∧ ∃ r, requests (snd (getToken env (snd (setEmail (VStr "a@b.com") first_start))))
         = [r]
         ∧ payload r !! "email" = Some (VStr "a@b.com").
Proof.
  intros env.
  assert (Hinfo : ∃ info, getDeviceInfo env = Resolve info) by (eexists; reflexivity).
  destruct Hinfo as [info Hinfo].
  destruct (setEmail_then_getToken env first_start "" "fcm-1" info)
    as (Hp & _);
    [reflexivity | reflexivity | reflexivity | discriminate | exact Hinfo |].
  destruct (setEmail_then_getToken env first_start "a@b.com" "fcm-1" info)
    as (_ & _ & r & Hr & _ & He);
    [vm_compute; reflexivity | reflexivity | reflexivity | discriminate
     | exact Hinfo |].
  split; [vm_compute; reflexivity|]. split; [exact Hp|].
  exists r. split; [exact Hr | exact He].
Defined.

Lemma lower_char_at (c : ascii) : lower_char c = "@"%char → c = "@"%char.
Proof.
  destruct c as [[] [] [] [] [] [] [] []]; vm_compute; intros H;
    first [reflexivity | discriminate H].
Qed.

(** A split of the lowered string is a split of the string. *)
Lemma toLowerCase_app_inv (a b s : string) :
  toLowerCase s = (a ++ b)%string →
  ∃ a0 b0, s = (a0 ++ b0)%string ∧ toLowerCase a0 = a ∧ toLowerCase b0 = b.
Proof.
  revert s. induction a as [|c a IH]; intros s H.
  - exists "", s. auto.
  - change (toLowerCase s = String c (a ++ b)%string) in H.
    destruct s as [|c0 s]; [discriminate H|].
    cbn [toLowerCase] in H. injection H as Hc Hs.
    destruct (IH s Hs) as (a0 & b0 & -> & Ha & Hb).
    exists (String c0 a0), b0. split; [reflexivity|].
    split; [cbn [toLowerCase]; rewrite Hc, Ha; reflexivity | exact Hb].
Qed.

(** X24. Whatever [validateEmail] accepts has an [@] with something before
    it and something after it. *)
Theorem validateEmail_needs_at (email : string) :
  validateEmail email = true →
  ∃ l d, email = (l ++ String "@" d)%string ∧ l ≠ "" ∧ d ≠ "".
Proof.
  intros H. destruct (validateEmail_shape email H) as (l' & d' & E & Hl & Hd).
  assert (Hl' : l' ≠ "").
  { intros ->. apply RegExpFacts.nullable_lang in Hl. vm_compute in Hl.
    discriminate Hl. }
  assert (Hd' : d' ≠ "").
  { intros ->. apply RegExpFacts.nullable_lang in Hd. vm_compute in Hd.
    discriminate Hd. }
  destruct (toLowerCase_app_inv _ _ _ E) as (l & b & -> & Ha & Hb).
  destruct b as [|c d]; [discriminate Hb|].
  cbn [toLowerCase] in Hb. injection Hb as Hc Hd0.
  apply lower_char_at in Hc. subst c.
  exists l, d. split; [reflexivity|].
  split; intros ->; [apply Hl' | apply Hd']; symmetry; assumption.
Qed.

Lemma validateEmail_needs_at_witness :
  ∃ l d, "a@b.com" = (l ++ String "@" d)%string ∧ l ≠ "" ∧ d ≠ "".
Proof.
  apply (validateEmail_needs_at "a@b.com"). vm_compute. reflexivity.
Defined.

(** ** Permissions *)

(** X26. [requestPermissionAndGetToken] after a refusal rejects with
    ['Denied'] and leaves the world as it was: the subscription flag is not
    raised and nothing is sent.  After a grant it ends as [getToken] ends,
    on the same world. *)
Theorem requestPermissionAndGetToken_outcome (pm : Permissions) (env : Env)
    (w : World) :
  (∀ e, messaging_requestPermission pm = Reject e →
        requestPermissionAndGetToken pm env w = ([Reject (VStr "Denied")], w))
  ∧ (∀ u, messaging_requestPermission pm = Resolve u →
          fst (requestPermissionAndGetToken pm env w) = fst (getToken env w)
          ∧ snd (requestPermissionAndGetToken pm env w) = snd (getToken env w)
          ∧ checkIfSubscribed (snd (requestPermissionAndGetToken pm env w)) = true).
Proof.
  unfold requestPermissionAndGetToken, requestPermission. split.
  - intros e ->. reflexivity.
  - intros u ->. cbn [state head].
    pose proof (getToken_isSubscribed env w) as Hs.
    assert (Hlen : (fst (getToken env w) = []
                    ∨ ∃ x, fst (getToken env w) = [x])).
    { unfold getToken. split_matches; cbn; eauto. }
    destruct (getToken env w) as [p w1]. cbn [fst snd] in *.
    assert (Hsub : checkIfSubscribed w1 = true).
    { unfold checkIfSubscribed. apply bool_decide_eq_true, Hs. }
    destruct Hlen as [-> | [[token|err] ->]]; cbn; auto.
Qed.

Lemma requestPermissionAndGetToken_outcome_witness :
  let env := sample_env "ios" (Some "fcm-1") None in
  requestPermissionAndGetToken denied_permissions env first_start
  = ([Reject (VStr "Denied")], first_start)
  ∧ fst (requestPermissionAndGetToken granted_permissions env first_start)
    = [Resolve (VStr "fcm-1")].
Proof.
  intros env.
  destruct (requestPermissionAndGetToken_outcome denied_permissions env first_start)
    as [Hno _].
  destruct (requestPermissionAndGetToken_outcome granted_permissions env first_start)
    as [_ Hyes].
  split; [apply (Hno (VStr "user said no")); reflexivity|].
  destruct (Hyes tt) as (Hp & _); [reflexivity|]. rewrite Hp. reflexivity.
Defined.

(** X27. [checkExternalStoragePermission] always checks before it asks,
    and asks only on ['android'] and only when the check says the
    permission is not granted; it rejects, with ['No Permission'], only
    after the user answered the request with something else than
    ['granted']; off ['android'] it resolves at once without a check. *)
Theorem checkExternalStoragePermission_asks_when_needed (pm : Permissions)
    (env : Env) :
  (In "request" (snd (checkExternalStoragePermission pm env)) →
   OS env = "android" ∧ PermissionsAndroid_check pm = Resolve false
   ∧ snd (checkExternalStoragePermission pm env) = ["check"; "request"])
  ∧ (∀ e, In (Reject e) (fst (checkExternalStoragePermission pm env)) →
          e = VStr "No Permission"
          ∧ ∃ result, PermissionsAndroid_request pm = Resolve result
                      ∧ result ≠ GRANTED
                      ∧ In "request" (snd (checkExternalStoragePermission pm env)))
  ∧ (OS env ≠ "android" →
     checkExternalStoragePermission pm env
     = ([Resolve (VStr "This only works in Android!")], [])).
Proof.
  unfold checkExternalStoragePermission.
  destruct (String.eqb (OS env) "android") eqn:Hos.
  - apply String.eqb_eq in Hos.
    destruct (PermissionsAndroid_check pm) as [[|]|e0] eqn:Hc.
    + split; [cbn; intros [H|[]]; discriminate H|].
      split; [cbn; intros e [H|[]]; discriminate H | congruence].
    + destruct (PermissionsAndroid_request pm) as [result|e1] eqn:Hr.
      * destruct (String.eqb result GRANTED) eqn:Hg.
        -- split; [auto|].
           split; [cbn; intros e [H|[]]; discriminate H | congruence].
        -- split; [auto|]. split; [|congruence].
           cbn. intros e [H|[]]. injection H as <-. split; [reflexivity|].
           exists result. apply String.eqb_neq in Hg. auto.
      * split; [auto|]. split; [cbn; intros e []|congruence].
    + split; [cbn; intros [H|[]]; discriminate H|].
      split; [cbn; intros e []|congruence].
  - split; [cbn; intros []|].
    split; [cbn; intros e [H|[]]; discriminate H|]. reflexivity.
Qed.

Lemma checkExternalStoragePermission_asks_when_needed_witness :
  checkExternalStoragePermission denied_permissions (sample_env "android" None None)
  = ([Reject (VStr "No Permission")], ["check"; "request"])
  ∧ checkExternalStoragePermission denied_permissions (sample_env "ios" None None)
    = ([Resolve (VStr "This only works in Android!")], []).
Proof.
  split; [reflexivity|].
  apply (checkExternalStoragePermission_asks_when_needed denied_permissions
           (sample_env "ios" None None)).
  discriminate.
Defined.
